(** * Portfolio tracker: valuation, persistence, refresh and price adapters

    A shallow embedding of [app/routes/_index.tsx] and of the three price
    services ([coingecko.server.ts], [alphaVantage.server.ts],
    [goldapi.server.ts]).

    Conventions of the embedding.
    - A JavaScript [number] is an IEEE 754 binary64 value: Rocq's primitive
      [float], with [*], [/], [>] and [isNaN] as [PrimFloat.mul],
      [PrimFloat.div], [PrimFloat.ltb] and [PrimFloat.is_nan].
    - An optional field ([purchaseValue?: number]) is an [option]; [None] is
      JavaScript's [undefined].
    - A string is a [string] of 8-bit code units; the ids the program handles
      (coin ids, tickers, XAU/XAG) are ASCII.
    - A plain object used as a dictionary ([AllPrices]) is a [gmap string _]
      holding its own properties; a read [prices[id]] also sees the members
      inherited from [Object.prototype], and an assignment under ["__proto__"]
      adds no own property.
    - What a vendor sends is an untyped value: the adapters and the loader
      read it with JavaScript's conversions and may throw a TypeError on it.
    - [console] output is not part of any result and is left out. *)

From Stdlib Require Import ZArith NArith Uint63 Floats Ascii String List Bool Lia.
From stdpp Require Import base option gmap strings list fin_maps pretty sorting.
Import ListNotations.

Local Open Scope string_scope.
Local Open Scope list_scope.

(** ** JavaScript numbers *)

Module Num.

Definition mul (x y : float) : float := PrimFloat.mul x y.
Definition div (x y : float) : float := PrimFloat.div x y.
Definition add (x y : float) : float := PrimFloat.add x y.
Definition sub (x y : float) : float := PrimFloat.sub x y.

(** [x > 0] *)
Definition gt0 (x : float) : bool := PrimFloat.ltb 0%float x.

(** [x == 0] (true of both signed zeros, false of NaN) *)
Definition is0 (x : float) : bool := PrimFloat.eqb x 0%float.

Definition isNaN (x : float) : bool := PrimFloat.is_nan x.

(** [Number.isFinite] *)
Definition isFinite (x : float) : bool :=
  negb (PrimFloat.is_nan x || PrimFloat.is_infinity x).

(** ToBoolean of a number: [0], [-0] and [NaN] are falsy. *)
Definition truthy (x : float) : bool := negb (is0 x || isNaN x).

(** [x || 0] for [x : number | undefined] *)
Definition or_zero (o : option float) : float :=
  match o with
  | Some v => if truthy v then v else 0%float
  | None => 0%float
  end.

End Num.

(** ** Data model ([_index.tsx], lines 20-44) *)

Inductive AssetType := crypto | stock | commodity | real_estate | other.

Definition AssetType_eqb (a b : AssetType) : bool :=
  match a, b with
  | crypto, crypto | stock, stock | commodity, commodity
  | real_estate, real_estate | other, other => true
  | _, _ => false
  end.

Record Asset := mkAsset {
  id : string;
  type : AssetType;
  symbol : string;
  name : string;
  quantity : float;
  purchaseValue : option float;
  currentValue : option float
}.

(** [CalculatedAsset extends Asset] *)
Record CalculatedAsset := mkCalculated {
  asset_of : Asset;
  price : option float;
  calculatedValue : option float
}.

Record PriceData := mkPrice { usd : float }.

(** [AllPrices]: [{ [assetId: string]: PriceData }] *)
Abbreviation AllPrices := (gmap string PriceData).

(** One point of the chart series, as the component reads it:
    [{ date, value }] with a number as its value. *)
Record ChartPoint := mkPoint { date : string; value : float }.

(** ** Valuation ([portfolioWithCalculatedValues], lines 276-309) *)

Definition fetchable (t : AssetType) : bool :=
  match t with crypto | stock | commodity => true | _ => false end.

(** The names a plain object inherits from [Object.prototype]. *)
Definition inheritedNames : list string :=
  ["constructor"; "hasOwnProperty"; "isPrototypeOf"; "propertyIsEnumerable";
   "toLocaleString"; "toString"; "valueOf"; "__proto__";
   "__defineGetter__"; "__defineSetter__"; "__lookupGetter__"; "__lookupSetter__"].

Definition inherited (k : string) : bool :=
  List.existsb (String.eqb k) inheritedNames.

(** What [currentPrices[id]] reads: the own entry; without one, for an
    inherited name, the member of [Object.prototype] (a function, or the
    prototype itself under ["__proto__"]); [undefined] otherwise. *)
Inductive Read :=
| Own (d : PriceData)
| Member
| Missing.

Definition read (currentPrices : AllPrices) (k : string) : Read :=
  match currentPrices !! k with
  | Some d => Own d
  | None => if inherited k then Member else Missing
  end.

(** The callback of [portfolio.map]. An own entry is taken at its declared
    type, [{ usd: number }]. An inherited member is truthy and has no [usd]:
    the price is [undefined] and the value [quantity * undefined]. *)
Definition calculate (currentPrices : AllPrices) (asset : Asset) : CalculatedAsset :=
  let assetPriceData := read currentPrices (id asset) in
  match assetPriceData, fetchable (type asset) with
  | Own d, true =>
      let price := usd d in
      mkCalculated asset (Some price) (Some (Num.mul (quantity asset) price))
  | Member, true =>
      mkCalculated asset None (Some (Num.mul (quantity asset) PrimFloat.nan))
  | _, _ =>
      match type asset, currentValue asset with
      | real_estate, Some cv =>
          let calculatedValue := cv in
          mkCalculated asset
            (if Num.gt0 (quantity asset)
             then Some (Num.div calculatedValue (quantity asset)) else None)
            (Some calculatedValue)
      | _, _ =>
          match type asset with
          | other =>
              let calculatedValue :=
                match purchaseValue asset with
                | Some pv => pv
                | None => Num.mul (quantity asset) 50%float
                end in
              mkCalculated asset
                (if Num.gt0 (quantity asset)
                 then Some (Num.div calculatedValue (quantity asset)) else None)
                (Some calculatedValue)
          | _ => mkCalculated asset None None
          end
      end
  end.

Definition portfolioWithCalculatedValues
    (portfolio : list Asset) (currentPrices : AllPrices) : list CalculatedAsset :=
  List.map (calculate currentPrices) portfolio.

(** ** Total value and chart data (Effect 3, lines 313-338) *)

Definition newTotalValue (calculated : list CalculatedAsset) : float :=
  List.fold_left (fun sum a => Num.add sum (Num.or_zero (calculatedValue a)))
    calculated 0%float.

(** [chartAssetName && chartAssetName !== 'N/A' && chartAssetName !== 'Error'] *)
Definition chartable (chartAssetName : string) : bool :=
  negb (String.eqb chartAssetName "")
  && negb (String.eqb chartAssetName "N/A")
  && negb (String.eqb chartAssetName "Error").

Definition assetForChart
    (calculated : list CalculatedAsset) (chartAssetName : string)
    : option CalculatedAsset :=
  if chartable chartAssetName
  then List.find (fun a => String.eqb (id (asset_of a)) chartAssetName) calculated
  else None.

(** [{ ...entry, value: entry.value * (assetForChart.quantity ?? 0) }] *)
Definition scale_entry (a : CalculatedAsset) (entry : ChartPoint) : ChartPoint :=
  mkPoint (date entry) (Num.mul (value entry) (quantity (asset_of a))).

Definition clientChartData
    (calculated : list CalculatedAsset) (serverChartData : list ChartPoint)
    (chartAssetName : string) : list ChartPoint :=
  match assetForChart calculated chartAssetName with
  | Some a =>
      if (0 <? List.length serverChartData)%nat
      then List.map (scale_entry a) serverChartData
      else []
  | None => []
  end.

(** ** Untyped JavaScript values

    What [JSON.parse] and [response.json()] return, and what a property read
    on such a value gives ([VUndefined] for a missing property). *)

#[warnings="-register-all"]
Inductive jsval :=
| VUndefined
| VNull
| VBool (b : bool)
| VNum (f : float)
| VStr (s : string)
| VArr (items : list jsval)
| VObj (props : list (string * jsval)).

(** Builtins of the platform that the program calls and that are taken as
    given: [parseFloat] on a string, and the locale's date formatting.
    [parseFloat("0")] is [0]. *)
Class Platform := {
  parseFloatString : string -> float;
  toLocaleDateString : float -> string;
  parseFloatString_0 : parseFloatString "0" = 0%float
}.

(** Conversions the program performs only on a vendor answer that departs
    from its declared type: [Number(s)] on a string, [String(x)] on a number
    used as a property key, and [new Date(v).toLocaleDateString()] for a
    value [v] that is not a number. *)
Class Coercions := {
  stringToNumber : string -> float;
  numberToString : float -> string;
  dateText : jsval -> string
}.

Module JS.

(** ToBoolean *)
Definition truthy (v : jsval) : bool :=
  match v with
  | VUndefined | VNull => false
  | VBool b => b
  | VNum f => Num.truthy f
  | VStr s => negb (String.eqb s "")
  | VArr _ | VObj _ => true
  end.

(** [a || b] *)
Definition or (a b : jsval) : jsval := if truthy a then a else b.

(** Own property of an object literal parsed from JSON: with a repeated
    key the last occurrence wins. *)
Fixpoint assoc (k : string) (props : list (string * jsval)) : option jsval :=
  match props with
  | [] => None
  | (k', v) :: rest =>
      match assoc k rest with
      | Some v' => Some v'
      | None => if String.eqb k' k then Some v else None
      end
  end.

(** [k in v] for an object; arrays have no such named keys. *)
Definition has (k : string) (v : jsval) : bool :=
  match v with
  | VObj props => bool_decide (is_Some (assoc k props))
  | _ => false
  end.

(** [v[k]] for a property name [k] that is neither an index nor [length]:
    a TypeError ([None]) on [null] and [undefined], the property of an
    object, [undefined] on anything else. *)
Definition get (k : string) (v : jsval) : option jsval :=
  match v with
  | VUndefined | VNull => None
  | VObj props => Some (default VUndefined (assoc k props))
  | _ => Some VUndefined
  end.

(** [typeof v === 'object' && v !== null] *)
Definition is_object (v : jsval) : bool :=
  match v with VArr _ | VObj _ => true | _ => false end.

Section WithPlatform.
Context `{Platform}.

(** [parseFloat(v)]: the argument is converted to a string and its
    longest numeric prefix is read. A number prints and reads back as
    itself, [-0] as [0]; an array prints its elements separated by
    commas, so only its first element can contribute. *)
Fixpoint parseFloat (v : jsval) : float :=
  match v with
  | VNum f => if Num.is0 f then 0%float else f
  | VStr s => parseFloatString s
  | VArr (x :: _) => parseFloat x
  | VArr [] | VUndefined | VNull | VBool _ | VObj _ => PrimFloat.nan
  end.

End WithPlatform.

(** [v[i]] for an index [i]: a TypeError ([None]) on [null] and
    [undefined]; the element of an array, the character of a string, the
    property of an object named by the index; [undefined] when there is
    none and on the other primitives. *)
Definition item (i : nat) (v : jsval) : option jsval :=
  match v with
  | VUndefined | VNull => None
  | VArr items => Some (List.nth i items VUndefined)
  | VStr s =>
      Some (match String.get i s with
            | Some c => VStr (String c EmptyString)
            | None => VUndefined
            end)
  | VObj props => Some (default VUndefined (assoc (pretty i) props))
  | VBool _ | VNum _ => Some VUndefined
  end.

(** [v.pop()]: an array loses its last element; anything else has no
    method [pop], and the call is a TypeError ([None]). *)
Definition pop (v : jsval) : option jsval :=
  match v with
  | VArr items => Some (VArr (List.removelast items))
  | _ => None
  end.

(** [v?.pop()], as a statement: nothing happens on [null] and
    [undefined]. *)
Definition pop_optional (v : jsval) : option jsval :=
  match v with
  | VUndefined | VNull => Some v
  | _ => pop v
  end.

(** The object [v] after its own property [k], if it has one, has been
    given the value [x]. *)
Definition update (k : string) (x : jsval) (v : jsval) : jsval :=
  match v with
  | VObj props =>
      VObj (List.map (fun kv => if String.eqb (fst kv) k then (fst kv, x) else kv)
              props)
  | _ => v
  end.

(** Whether [v] converts to a primitive. An object parsed from JSON holds
    no function: an own property [toString] hides the inherited method and
    the conversion is a TypeError. An array prints its elements. *)
Fixpoint printable (v : jsval) : bool :=
  match v with
  | VObj props => negb (bool_decide (is_Some (assoc "toString" props)))
  | VArr items => List.forallb printable items
  | _ => true
  end.

Section WithCoercions.
Context `{Coercions}.

(** [Number(String(v))] for a printable [v] as an array prints it: a number
    reads back as itself, [-0] as [0]; [null], [undefined] and the empty
    array print as the empty string, which reads as [0]; an array of one
    element prints as that element; a longer one prints a comma and reads
    as [NaN], as do [true], [false] and ["[object Object]"]. *)
Fixpoint textNumber (v : jsval) : float :=
  match v with
  | VNum f => if Num.is0 f then 0%float else f
  | VStr s => stringToNumber s
  | VUndefined | VNull | VArr [] => 0%float
  | VArr [x] => textNumber x
  | VArr (_ :: _ :: _) | VBool _ | VObj _ => PrimFloat.nan
  end.

(** ToNumber, a TypeError ([None]) when [v] does not convert to a
    primitive. *)
Definition toNumber (v : jsval) : option float :=
  if printable v then
    Some (match v with
          | VUndefined => PrimFloat.nan
          | VNull => 0%float
          | VBool b => if b then 1%float else 0%float
          | VNum f => f
          | VStr s => stringToNumber s
          | VArr _ => textNumber v
          | VObj _ => PrimFloat.nan
          end)
  else None.

End WithCoercions.

End JS.

(** ** [JSON.stringify], read back by [JSON.parse]

    What the receiver of a serialised value gets: [null] for a number that
    is not finite, [0] for [-0]; an array element that is [undefined] becomes
    [null], a property that is [undefined] is left out, and a repeated key
    (which only a model of an object can have) counts once, with its last
    value. *)

Module JSON.

Definition element (v : jsval) : jsval :=
  match v with VUndefined => VNull | _ => v end.

(** The properties as the receiver sees them: one per key, none
    [undefined]. *)
Fixpoint own (props : list (string * jsval)) : list (string * jsval) :=
  match props with
  | [] => []
  | (k, v) :: rest =>
      if bool_decide (is_Some (JS.assoc k rest)) then own rest
      else match v with VUndefined => own rest | _ => (k, v) :: own rest end
  end.

Fixpoint value (v : jsval) : jsval :=
  match v with
  | VNum f => if Num.isFinite f then VNum (if Num.is0 f then 0%float else f) else VNull
  | VArr items => VArr (List.map (fun x => element (value x)) items)
  | VObj props => VObj (own (List.map (fun kv => (fst kv, value (snd kv))) props))
  | VUndefined | VNull | VBool _ | VStr _ => v
  end.

(** A property of the serialised object. *)
Definition property (v : jsval) : option jsval :=
  match value v with
  | VUndefined => None
  | x => Some x
  end.

End JSON.

(** ** Persistence ([getClientPortfolio], [saveClientPortfolio], lines 47-82)

    The item stored under ["portfolioData"] is a JSON text. It is modelled by
    the value it denotes: absent, not parseable into an array of objects, or an
    array of asset objects whose numeric fields are untyped values (a field
    that is absent reads as [VUndefined]). *)

Record StoredAsset := mkStored {
  s_id : string;
  s_type : AssetType;
  s_symbol : string;
  s_name : string;
  s_quantity : jsval;
  s_purchaseValue : jsval;
  s_currentValue : jsval
}.

Inductive Stored :=
| NoItem
| Malformed
| Items (assets : list StoredAsset).

(** [JSON.stringify] of a number: [null] for [NaN] and the infinities, and
    [-0] prints as [0]. *)
Definition stringify_number (f : float) : jsval :=
  if Num.isFinite f then VNum (if Num.is0 f then 0%float else f) else VNull.

(** [JSON.stringify] leaves out a property whose value is [undefined]. *)
Definition stringify_optional (o : option float) : jsval :=
  match o with
  | Some f => stringify_number f
  | None => VUndefined
  end.

(** [({ price, calculatedValue, ...asset }) => asset], then [JSON.stringify]. *)
Definition strip (a : CalculatedAsset) : StoredAsset :=
  let asset := asset_of a in
  mkStored (id asset) (type asset) (symbol asset) (name asset)
    (stringify_number (quantity asset))
    (stringify_optional (purchaseValue asset))
    (stringify_optional (currentValue asset)).

Definition saveClientPortfolio (portfolio : list CalculatedAsset) : Stored :=
  Items (List.map strip portfolio).

(** An [Asset] seen as an element of an [Asset[]] that carries no derived
    field. *)
Definition plain (a : Asset) : CalculatedAsset := mkCalculated a None None.

Section Persistence.
Context `{Platform}.

Definition revive (asset : StoredAsset) : Asset :=
  mkAsset (s_id asset) (s_type asset) (s_symbol asset) (s_name asset)
    (JS.parseFloat (JS.or (s_quantity asset) (VStr "0")))
    (if JS.truthy (s_purchaseValue asset)
     then Some (JS.parseFloat (s_purchaseValue asset)) else None)
    (if JS.truthy (s_currentValue asset)
     then Some (JS.parseFloat (s_currentValue asset)) else None).

Definition getClientPortfolio (storedData : Stored) : list Asset :=
  match storedData with
  | NoItem => []
  | Malformed => []
  | Items parsedData => List.map revive parsedData
  end.

End Persistence.

(** A number that [JSON.stringify] prints and the loader reads back as it
    is: finite and not zero. *)
Definition storable (f : float) : Prop :=
  Num.isFinite f = true /\ Num.is0 f = false.

(** A holding whose numeric fields survive a save and a load: a quantity
    that is [0] or storable, optional values that are absent or storable. *)
Definition regular (a : Asset) : Prop :=
  (quantity a = 0%float \/ storable (quantity a))
  /\ (forall v, purchaseValue a = Some v -> storable v)
  /\ (forall v, currentValue a = Some v -> storable v).

(** ** Client state and the add / remove handlers (lines 342-421) *)

Record Client := mkClient {
  portfolio : list Asset;
  localStorage : Stored
}.

(** The state update of [handleAddAsset] for the [newAsset] built from the
    form (lines 399-408). *)
Definition handleAddAsset (newAsset : Asset) (st : Client) : Client :=
  let prevPortfolio := portfolio st in
  if List.existsb (fun asset => String.eqb (id asset) (id newAsset)) prevPortfolio
  then st
  else
    let updatedPortfolio := prevPortfolio ++ [newAsset] in
    mkClient updatedPortfolio (saveClientPortfolio (List.map plain updatedPortfolio)).

Definition handleRemoveAsset (assetId : string) (st : Client) : Client :=
  let updatedPortfolio :=
    List.filter (fun asset => negb (String.eqb (id asset) assetId)) (portfolio st) in
  mkClient updatedPortfolio (saveClientPortfolio (List.map plain updatedPortfolio)).

(** In-sync states: what is stored is what was last saved. *)
Definition in_sync (st : Client) : Prop :=
  localStorage st = saveClientPortfolio (List.map plain (portfolio st)).

(** ** Refresh controller (Effect 2, lines 219-272) *)

(** The body of a loader response. The component declares the prices as
    [AllPrices]; the server builds them from what the vendors sent, so the
    type of an entry is a parameter. Effect 2 reads only the keys. The chart
    series is declared [any[]]: its entries are untyped values. *)
Record LoaderData (P : Type) := mkLoaderData {
  currentPrices : gmap string P;
  chartData : list jsval;
  chartAssetName : string
}.
Arguments mkLoaderData {P} currentPrices chartData chartAssetName.
Arguments currentPrices {P} l.
Arguments chartData {P} l.
Arguments chartAssetName {P} l.

Inductive FetcherState := idle | loading | submitting.

(** [priceFetcher]: its state, and the data of the last completed load
    ([None] until one has completed). *)
Record Fetcher (P : Type) := mkFetcher {
  state : FetcherState;
  data : option (LoaderData P)
}.
Arguments mkFetcher {P} state data.
Arguments state {P} f.
Arguments data {P} f.

Definition is_idle (s : FetcherState) : bool :=
  match s with idle => true | _ => false end.

(** [Array.prototype.sort] without a comparator orders strings by their code
    units; it reorders the array it is called on. *)
Fixpoint insert_sorted (x : string) (l : list string) : list string :=
  match l with
  | [] => [x]
  | y :: rest => if String.leb x y then x :: l else y :: insert_sorted x rest
  end.

Definition sort (l : list string) : list string :=
  List.fold_right insert_sorted [] l.

(** [ids.join(',')] *)
Fixpoint join (ids : list string) : string :=
  match ids with
  | [] => ""
  | [x] => x
  | x :: rest => (x ++ "," ++ join rest)%string
  end.

(** [Object.keys(prices)]; the program sorts the keys or counts them, so
    their order is not observed. *)
Definition keys {P} (prices : gmap string P) : list string :=
  List.map fst (map_to_list prices).

Definition is_XAU_or_XAG (s : string) : bool :=
  String.eqb s "XAU" || String.eqb s "XAG".

Definition ids_of (keep : Asset -> bool) (portfolio : list Asset) : list string :=
  List.map id (List.filter keep portfolio).

(** [name.length > 0 ? prefix + ids.join(',') : ''] *)
Definition query_part (prefix : string) (ids : list string) : string :=
  if (0 <? List.length ids)%nat then (prefix ++ join ids)%string else "".

(** One evaluation of Effect 2. The result is the argument of
    [priceFetcher.load] when the effect calls it, and [None] when it does not.

    The three id arrays are sorted in place by [cryptoIds.sort()] and its two
    siblings after the query string has been built from them; every later read
    of [cryptoIds], so [cryptoIds[0]] for the needed chart name, sees the
    sorted array. *)
Definition effect2 {P}
    (portfolio : list Asset) (priceFetcher : Fetcher P)
    (initialLoaderData : LoaderData P) : option string :=
  if (0 <? List.length portfolio)%nat && is_idle (state priceFetcher) then
    let cryptoIds :=
      ids_of (fun asset => AssetType_eqb (type asset) crypto
                           && negb (String.eqb (id asset) "")) portfolio in
    let stockSymbols :=
      ids_of (fun asset => AssetType_eqb (type asset) stock
                           && negb (String.eqb (id asset) "")) portfolio in
    let commoditySymbols :=
      ids_of (fun asset => AssetType_eqb (type asset) commodity
                           && is_XAU_or_XAG (id asset)) portfolio in
    let cryptoQuery := query_part "&cryptoIds=" cryptoIds in
    let stockQuery := query_part "&stockSymbols=" stockSymbols in
    let commodityQuery := query_part "&commoditySymbols=" commoditySymbols in
    let query := ("?index" ++ cryptoQuery ++ stockQuery ++ commodityQuery)%string in
    let currentFetchedIds :=
      join (sort (keys (from_option currentPrices ∅ (data priceFetcher)))) in
    (* in-place sorts: the arrays are the sorted ones from here on *)
    let cryptoIds := sort cryptoIds in
    let stockSymbols := sort stockSymbols in
    let commoditySymbols := sort commoditySymbols in
    let neededIds := join (sort (cryptoIds ++ stockSymbols ++ commoditySymbols)) in
    let currentChartName :=
      from_option chartAssetName (chartAssetName initialLoaderData)
        (data priceFetcher) in
    let neededChartName :=
      match cryptoIds with
      | first :: _ => first
      | [] => "N/A"
      end in
    if negb (bool_decide (is_Some (data priceFetcher)))
       || negb (String.eqb neededIds currentFetchedIds)
       || negb (String.eqb neededChartName currentChartName)
    then Some query
    else None
  else if negb (is_idle (state priceFetcher)) then None
  else
    match data priceFetcher with
    | Some d =>
        if (0 <? List.length (keys (currentPrices d)))%nat
        then Some "?index" else None
    | None => None
    end.

(** ** The network, time and exceptions

    An adapter runs in a [World]: a clock in milliseconds and the log of what
    the adapter did so far. A vendor is an oracle giving, for the world in
    which a request is issued and its URL, what [fetch] does and how long it
    takes. [setTimeout(resolve, ms)] moves the clock forward by [ms]. *)

Inductive Error := FetchFailed | HttpError | SyntaxError | TypeError.

Inductive Result (A : Type) :=
| Ok (a : A)
| Thrown (e : Error).
Arguments Ok {A} a.
Arguments Thrown {A} e.

Inductive Event :=
| Slept (ms : N)
| Requested (url : string).

Record World := mkWorld {
  clock : N;
  log : list Event
}.

(** [fetch] rejects ([None]) or resolves with a response: [response.ok], and
    the value [response.json()] resolves with ([None] when it rejects). *)
Record Response (B : Type) := mkResponse {
  ok : bool;
  json : option B
}.
Arguments mkResponse {B} ok json.
Arguments ok {B} r.
Arguments json {B} r.

Record Reply (B : Type) := mkReply {
  latency : N;
  response : option (Response B)
}.
Arguments mkReply {B} latency response.
Arguments latency {B} r.
Arguments response {B} r.

Definition Vendor (B : Type) : Type := World -> string -> Reply B.

Definition M (A : Type) : Type := World -> Result A * World.

#[global] Instance M_ret : MRet M := fun A a w => (Ok a, w).

#[global] Instance M_bind : MBind M := fun A B f m w =>
  match m w with
  | (Ok a, w') => f a w'
  | (Thrown e, w') => (Thrown e, w')
  end.

Definition throw {A} (e : Error) : M A := fun w => (Thrown e, w).

(** [try { m } catch (error) { h error }] *)
Definition catch {A} (m : M A) (h : Error -> M A) : M A := fun w =>
  match m w with
  | (Ok a, w') => (Ok a, w')
  | (Thrown e, w') => h e w'
  end.

Definition lift {A} (r : Result A) : M A := fun w => (r, w).

(** [await new Promise(resolve => setTimeout(resolve, ms))] *)
Definition sleep (ms : N) : M unit := fun w =>
  (Ok tt, mkWorld (clock w + ms) (log w ++ [Slept ms])).

(** [await fetch(url)] *)
Definition fetch {B} (vendor : Vendor B) (url : string) : M (Response B) := fun w =>
  let reply := vendor w url in
  let w' := mkWorld (clock w + latency reply) (log w ++ [Requested url]) in
  match response reply with
  | Some r => (Ok r, w')
  | None => (Thrown FetchFailed, w')
  end.

(** [await response.json()] *)
Definition json_of {B} (r : Response B) : M B :=
  match json r with
  | Some v => mret v
  | None => throw SyntaxError
  end.

(** [Date.now()] *)
Definition Date_now : M float := fun w =>
  (Ok (PrimFloat.of_uint63 (Uint63.of_Z (Z.of_N (clock w)))), w).

(** The world after a request issued in [w] has been answered. *)
Definition answered {B} (vendor : Vendor B) (w : World) (url : string) : World :=
  mkWorld (clock w + latency (vendor w url)) (log w ++ [Requested url]).

(** The URLs requested in a log, in order. *)
Definition requests (l : list Event) : list string :=
  List.flat_map (fun e => match e with Requested url => [url] | Slept _ => [] end) l.

(** The delays in a log, in order. *)
Definition delays (l : list Event) : list N :=
  List.flat_map (fun e => match e with Slept ms => [ms] | Requested _ => [] end) l.

(** An evaluation that may end in a TypeError. *)
Definition orThrow {A} (o : option A) : M A :=
  match o with
  | Some a => mret a
  | None => throw TypeError
  end.

(** [results[key] = d] on a plain object. Under the key ["__proto__"] the
    assignment replaces the prototype of [results] and adds no own
    property. *)
Definition assign (key : string) (d : PriceData) (results : AllPrices) : AllPrices :=
  if String.eqb key "__proto__" then results else <[key := d]> results.

(** ** CoinGecko ([coingecko.server.ts]) *)

Module CoinGecko.

Definition API_BASE_URL := "https://api.coingecko.com/api/v3".

Definition price_url (ids : list string) : string :=
  (API_BASE_URL ++ "/simple/price?ids=" ++ join ids ++ "&vs_currencies=usd")%string.

(** [fetchCryptoPrices] (lines 24-48). The body of a 2xx response is
    returned as received; every failure is re-thrown to the caller. *)
Definition fetchCryptoPrices (vendor : Vendor jsval) (ids : list string) : M jsval :=
  if (List.length ids =? 0)%nat then mret (VObj [])
  else
    catch
      (response ← fetch vendor (price_url ids);
       if negb (ok response) then throw HttpError
       else json_of response)
      (fun error => throw error).

Definition history_url (id : string) (days : N) : string :=
  (API_BASE_URL ++ "/coins/" ++ id ++ "/market_chart?vs_currency=usd&days="
     ++ pretty days ++ "&interval=daily")%string.

(** The last character of a string. *)
Fixpoint lastChar (s : string) : option ascii :=
  match s with
  | EmptyString => None
  | String c rest =>
      match lastChar rest with
      | Some c' => Some c'
      | None => Some c
      end
  end.

(** [data.prices.pop(); data.market_caps?.pop(); data.total_volumes?.pop()]:
    the body after the three statements, a TypeError ([None]) when one of the
    three is there and is not an array. *)
Definition dropLast (data : jsval) : option jsval :=
  prices ← JS.get "prices" data;
  prices ← JS.pop prices;
  let data := JS.update "prices" prices data in
  market_caps ← JS.get "market_caps" data;
  market_caps ← JS.pop_optional market_caps;
  let data := JS.update "market_caps" market_caps data in
  total_volumes ← JS.get "total_volumes" data;
  total_volumes ← JS.pop_optional total_volumes;
  Some (JS.update "total_volumes" total_volumes data).

Section WithCoercions.
Context `{Coercions}.

(** [prices[prices.length - 1]] under the guard
    [prices && prices.length > 0]: [Some None] when the guard fails,
    [None] when evaluating it is a TypeError. An array and a string have
    their length; an object has the number its own [length] converts to, and
    the entry is its property named by that number less one; a number and
    [true] have no [length]. *)
Definition lastEntry (prices : jsval) : option (option jsval) :=
  if negb (JS.truthy prices) then Some None
  else
    match prices with
    | VArr items => Some (List.last (List.map Some items) None)
    | VStr s => Some ((fun c => VStr (String c EmptyString)) <$> lastChar s)
    | VObj props =>
        length ← JS.toNumber (default VUndefined (JS.assoc "length" props));
        if PrimFloat.ltb 0%float length
        then Some (Some (default VUndefined
                           (JS.assoc (numberToString (Num.sub length 1%float)) props)))
        else Some None
    | _ => Some None
    end.

(** [fetchCryptoHistory] (lines 57-88). The body is read as it was
    received; every exception, a TypeError on the body among them, is
    re-thrown to the caller. *)
Definition fetchCryptoHistory
    (vendor : Vendor jsval) (id : string) (days : N) : M jsval :=
  catch
    (response ← fetch vendor (history_url id days);
     if negb (ok response) then throw HttpError
     else
       data ← json_of response;
       prices ← orThrow (JS.get "prices" data);
       last ← orThrow (lastEntry prices);
       match last with
       | Some entry =>
           lastTimestamp ← orThrow (JS.item 0 entry);
           now ← Date_now;
           lastTimestamp ← orThrow (JS.toNumber lastTimestamp);
           if PrimFloat.ltb (Num.sub now lastTimestamp) 82800000%float
           then orThrow (dropLast data)
           else mret data
       | None => mret data
       end)
    (fun error => throw error).

End WithCoercions.

End CoinGecko.

(** ** Alpha Vantage ([alphaVantage.server.ts]) *)

Module AlphaVantage.

Definition ALPHA_VANTAGE_API_KEY := "7GAGSE3KBU6OX1RC".
Definition API_BASE_URL := "https://www.alphavantage.co/query".

Definition quote_url (symbol : string) : string :=
  (API_BASE_URL ++ "?function=GLOBAL_QUOTE&symbol=" ++ symbol
     ++ "&apikey=" ++ ALPHA_VANTAGE_API_KEY)%string.

Definition isAlphaVantageError (response : jsval) : bool :=
  JS.is_object response
  && (JS.has "Error Message" response
      || JS.has "Information" response
      || JS.has "Note" response).

(** The inter-request delay, in milliseconds. *)
Definition DELAY : N := 13000.

(** The world after the delay that precedes a request. *)
Definition delayed (w : World) : World :=
  mkWorld (clock w + DELAY) (log w ++ [Slept DELAY]).

(** What a run over [symbols] adds to the log: per symbol a delay, then the
    request. *)
Definition events (symbols : list string) : list Event :=
  List.flat_map (fun symbol => [Slept DELAY; Requested (quote_url symbol)]) symbols.

(** [fetchWithDelay] (lines 657-670) *)
Definition fetchWithDelay (vendor : Vendor jsval) (url : string) : M jsval :=
  _ ← sleep DELAY;
  response ← fetch vendor url;
  if negb (ok response) then throw HttpError
  else json_of response.

(** The replies a run over [symbols] started in [w] receives, in order,
    each with the symbol it was requested for: a request is issued after its
    delay, in the world the previous reply left. *)
Fixpoint replies (vendor : Vendor jsval) (symbols : list string) (w : World)
    : list (string * Reply jsval) :=
  match symbols with
  | [] => []
  | symbol :: rest =>
      (symbol, vendor (delayed w) (quote_url symbol))
      :: replies vendor rest (answered vendor (delayed w) (quote_url symbol))
  end.

Section WithPlatform.
Context `{Platform}.

(** What the loop body makes of the parsed response (lines 698-726): the
    price to store, [None] when the symbol is skipped, or an exception
    for the enclosing [catch]. The text pushed onto [errors] is only
    logged. *)
Definition quote_price (data : jsval) : Result (option float) :=
  if isAlphaVantageError data then
    let field k := default VUndefined (JS.get k data) in
    let errorMessage :=
      JS.or (JS.or (JS.or (field "Error Message") (field "Information"))
               (field "Note")) (VStr "Unknown API message") in
    (* [errorMessage.includes(...)] exists on strings and arrays only *)
    match errorMessage with
    | VStr _ | VArr _ => Ok None
    | _ => Thrown TypeError
    end
  else
    match JS.get "Global Quote" data with
    | None => Thrown TypeError
    | Some globalQuote =>
        let quoted := default VUndefined (JS.get "05. price" globalQuote) in
        if JS.truthy globalQuote && JS.truthy quoted then
          let price := JS.parseFloat quoted in
          if negb (Num.isNaN price) then Ok (Some price) else Ok None
        else Ok None
    end.

(** [data["Global Quote"]["05. price"]], [undefined] when either level
    is missing. *)
Definition priceField (data : jsval) : jsval :=
  match JS.get "Global Quote" data with
  | Some globalQuote =>
      if JS.truthy globalQuote
      then default VUndefined (JS.get "05. price" globalQuote)
      else VUndefined
  | None => VUndefined
  end.

(** The reply carries the price [p]: a 2xx response whose body is not an
    error payload and whose price field reads as the number [p]. *)
Definition priced (reply : Reply jsval) (p : float) : Prop :=
  exists r data,
    response reply = Some r /\ ok r = true /\ json r = Some data
    /\ isAlphaVantageError data = false
    /\ JS.truthy (priceField data) = true
    /\ p = JS.parseFloat (priceField data)
    /\ Num.isNaN p = false.

(** The reply gives no price: the request failed, or (a) the status is
    not 2xx, or the body is not JSON, or (b) it is an error or rate-limit
    payload, or (c) the price field is missing, empty or not a number. *)
Definition degraded (reply : Reply jsval) : Prop :=
  match response reply with
  | None => True
  | Some r =>
      ok r = false
      \/ match json r with
         | None => True
         | Some data =>
             isAlphaVantageError data = true
             \/ JS.truthy (priceField data) = false
             \/ Num.isNaN (JS.parseFloat (priceField data)) = true
         end
  end.

(** One iteration of [for (const symbol of symbols)] with its
    [try]/[catch]. *)
Definition fetchQuote (vendor : Vendor jsval) (symbol : string) : M (option float) :=
  catch
    (data ← fetchWithDelay vendor (quote_url symbol);
     lift (quote_price data))
    (fun error => mret None).

Fixpoint fetchEach
    (vendor : Vendor jsval) (symbols : list string) (results : AllPrices)
    : M AllPrices :=
  match symbols with
  | [] => mret results
  | symbol :: rest =>
      quoted ← fetchQuote vendor symbol;
      fetchEach vendor rest
        (match quoted with
         | Some price => assign symbol (mkPrice price) results
         | None => results
         end)
  end.

(** [fetchStockPrices] (lines 678-738) *)
Definition fetchStockPrices (vendor : Vendor jsval) (symbols : list string)
    : M AllPrices :=
  if (List.length symbols =? 0)%nat then mret ∅
  else if String.eqb ALPHA_VANTAGE_API_KEY "YOUR_ALPHAVANTAGE_API_KEY"
          || String.eqb ALPHA_VANTAGE_API_KEY ""
  then mret ∅
  else fetchEach vendor symbols ∅.

End WithPlatform.

End AlphaVantage.

(** ** GoldAPI ([goldapi.server.ts]) *)

Module GoldApi.

Definition GOLDAPI_API_KEY := "goldapi-1awqnsm8rxzcft-io".
Definition API_BASE_URL := "https://www.goldapi.io/api".

Definition upper_ascii (c : ascii) : ascii :=
  let n := N_of_ascii c in
  if ((97 <=? n) && (n <=? 122))%N then ascii_of_N (n - 32) else c.

(** [s.toUpperCase()] on ASCII letters. *)
Fixpoint toUpperCase (s : string) : string :=
  match s with
  | EmptyString => EmptyString
  | String c rest => String (upper_ascii c) (toUpperCase rest)
  end.

Definition supportedSymbols : list string := ["XAU"; "XAG"].

(** [supportedSymbols.includes(x)] *)
Definition supported (x : string) : bool :=
  List.existsb (String.eqb x) supportedSymbols.

Definition spot_url (upperSymbol : string) : string :=
  (API_BASE_URL ++ "/" ++ upperSymbol ++ "/USD")%string.

(** What a run over [symbolsToFetch] adds to the log: the requests. *)
Definition events (symbolsToFetch : list string) : list Event :=
  List.map (fun symbol => Requested (spot_url (toUpperCase symbol))) symbolsToFetch.

Definition isGoldApiError (response : jsval) : bool :=
  JS.is_object response && JS.has "error" response.

(** [data && typeof data.price === 'number'], giving [data.price]. *)
Definition spot_price (data : jsval) : option float :=
  if JS.truthy data then
    match JS.get "price" data with
    | Some (VNum price) => Some price
    | _ => None
    end
  else None.

(** The reply carries the price [p]: a 2xx response whose body is not an
    error payload and has a number [p] as its [price]. *)
Definition priced (reply : Reply jsval) (p : float) : Prop :=
  exists r data,
    response reply = Some r /\ ok r = true /\ json r = Some data
    /\ isGoldApiError data = false
    /\ JS.get "price" data = Some (VNum p).

(** The reply gives no price: the request failed, or (a) the status is not
    2xx, or the body is not JSON, or (b) it is an error payload, or (c) its
    [price] is missing or not a number. *)
Definition degraded (reply : Reply jsval) : Prop :=
  match response reply with
  | None => True
  | Some r =>
      ok r = false
      \/ match json r with
         | None => True
         | Some data =>
             isGoldApiError data = true
             \/ (forall p, JS.get "price" data <> Some (VNum p))
         end
  end.

(** One iteration of [for (const symbol of symbolsToFetch)] with its
    [try]/[catch] (lines 70-113): the price to store under [upperSymbol],
    or [None] when the symbol is skipped. *)
Definition fetchSpot (vendor : Vendor jsval) (upperSymbol : string) : M (option float) :=
  catch
    (response ← fetch vendor (spot_url upperSymbol);
     if negb (ok response) then mret None
     else
       data ← json_of response;
       if isGoldApiError data then mret None
       else mret (spot_price data))
    (fun error => mret None).

(** The replies a run over [symbolsToFetch] started in [w] receives, in
    order, each with the key it was requested for. *)
Fixpoint replies (vendor : Vendor jsval) (symbolsToFetch : list string) (w : World)
    : list (string * Reply jsval) :=
  match symbolsToFetch with
  | [] => []
  | symbol :: rest =>
      let upperSymbol := toUpperCase symbol in
      (upperSymbol, vendor w (spot_url upperSymbol))
      :: replies vendor rest (answered vendor w (spot_url upperSymbol))
  end.

(** The key is in upper case, so it is never ["__proto__"] and the
    assignment [results[upperSymbol] = ...] adds an own property. *)
Fixpoint fetchEach
    (vendor : Vendor jsval) (symbolsToFetch : list string) (results : AllPrices)
    : M AllPrices :=
  match symbolsToFetch with
  | [] => mret results
  | symbol :: rest =>
      let upperSymbol := toUpperCase symbol in
      spot ← fetchSpot vendor upperSymbol;
      fetchEach vendor rest
        (match spot with
         | Some price => <[upperSymbol := mkPrice price]> results
         | None => results
         end)
  end.

(** [fetchCommodityPrices] (lines 52-121) *)
Definition fetchCommodityPrices (vendor : Vendor jsval) (symbols : list string)
    : M AllPrices :=
  let symbolsToFetch := List.filter (fun s => supported (toUpperCase s)) symbols in
  if (List.length symbolsToFetch =? 0)%nat then mret ∅
  else if String.eqb GOLDAPI_API_KEY ""
          || negb (String.prefix "goldapi-" GOLDAPI_API_KEY)
  then mret ∅
  else fetchEach vendor symbolsToFetch ∅.

End GoldApi.

(** ** The loader (lines 86-173) *)

Record Vendors := mkVendors {
  coinGeckoPrices : Vendor jsval;
  coinGeckoHistory : Vendor jsval;
  alphaVantage : Vendor jsval;
  goldApi : Vendor jsval
}.

(** The response: its status, and its body as the client reads it. *)
Record LoaderResponse := mkLoaderResponse {
  status : N;
  body : LoaderData jsval
}.

(** [{ usd: price }] as an untyped value. *)
Definition untyped (p : PriceData) : jsval := VObj [("usd", VNum (usd p))].

Fixpoint indexed (i : nat) (items : list jsval) : list (string * jsval) :=
  match items with
  | [] => []
  | x :: rest => (pretty i, x) :: indexed (S i) rest
  end.

Fixpoint characters (s : string) : list jsval :=
  match s with
  | EmptyString => []
  | String c rest => VStr (String c EmptyString) :: characters rest
  end.

(** [{ ...v }]: the own enumerable properties of [v]. For an object parsed
    from JSON the last occurrence of a key wins; an array and a string spread
    their indices; the other primitives spread nothing. *)
Definition spread (v : jsval) : gmap string jsval :=
  match v with
  | VObj props => list_to_map (List.rev props)
  | VArr items => list_to_map (indexed 0 items)
  | VStr s => list_to_map (indexed 0 (characters s))
  | VUndefined | VNull | VBool _ | VNum _ => ∅
  end.

(** [{ ...(crypto || {}), ...(stock || {}), ...(commodity || {}) }]: a later
    spread overwrites an earlier one. *)
Definition mergePrices (cryptoPricesResult : jsval)
    (stockPricesResult commodityPricesResult : AllPrices) : gmap string jsval :=
  (untyped <$> commodityPricesResult)
  ∪ ((untyped <$> stockPricesResult)
     ∪ spread (JS.or cryptoPricesResult (VObj []))).

(** [json(data)]: the body is [JSON.stringify(data)]. *)
Definition sent (data : LoaderData jsval) : LoaderData jsval :=
  mkLoaderData (omap JSON.property (currentPrices data))
    (List.map (fun entry => JSON.element (JSON.value entry)) (chartData data))
    (chartAssetName data).

Definition errorResponse : LoaderResponse :=
  mkLoaderResponse 500 (mkLoaderData ∅ [] "Error").

(** The result of a promise started in world [w]. *)
Definition settle {A} (promise : M A) (w : World) : Result A := fst (promise w).

Section Loader.
Context `{Platform} `{Coercions}.

(** [new Date(v).toLocaleDateString()], a TypeError ([None]) when [v] does
    not convert to a primitive. *)
Definition dateLabel (v : jsval) : option string :=
  match v with
  | VNum f => Some (toLocaleDateString f)
  | _ => if JS.printable v then Some (dateText v) else None
  end.

(** [entry => ({ date: new Date(entry[0]).toLocaleDateString(),
    value: entry[1] })] *)
Definition chartPoint (entry : jsval) : option jsval :=
  timestamp ← JS.item 0 entry;
  label ← dateLabel timestamp;
  value ← JS.item 1 entry;
  Some (VObj [("date", VStr label); ("value", value)]).

(** [historyDataResult.prices.map(...)]: only an array has the method
    [map]. *)
Definition chartOf (historyDataResult : jsval) : option (list jsval) :=
  prices ← JS.get "prices" historyDataResult;
  match prices with
  | VArr items => mapM chartPoint items
  | _ => None
  end.

(** The [try] block of the loader and its [catch] (lines 103-172), for the
    three id lists parsed from the query. The four promises are started
    together; [Promise.all] rejects as soon as one of them does, and a
    TypeError while the chart series is built is caught as well. *)
Definition loader (vendors : Vendors) (w : World)
    (cryptoIds stockSymbols commoditySymbols : list string) : LoaderResponse :=
  let historyAssetId := List.head cryptoIds in
  let wanted :=
    match historyAssetId with
    | Some i => negb (String.eqb i "")
    | None => false
    end in
  let cryptoPricesPromise :=
    CoinGecko.fetchCryptoPrices (coinGeckoPrices vendors) cryptoIds in
  let stockPricesPromise :=
    AlphaVantage.fetchStockPrices (alphaVantage vendors) stockSymbols in
  let commodityPricesPromise :=
    GoldApi.fetchCommodityPrices (goldApi vendors) commoditySymbols in
  let historyPromise : M jsval :=
    if wanted
    then CoinGecko.fetchCryptoHistory (coinGeckoHistory vendors)
           (default "" historyAssetId) 90
    else mret VNull in
  match settle cryptoPricesPromise w, settle stockPricesPromise w,
        settle commodityPricesPromise w, settle historyPromise w with
  | Ok cryptoPricesResult, Ok stockPricesResult,
    Ok commodityPricesResult, Ok historyDataResult =>
      let currentPrices :=
        mergePrices cryptoPricesResult stockPricesResult commodityPricesResult in
      let chartAssetName := default "N/A" historyAssetId in
      if JS.truthy historyDataResult then
        match chartOf historyDataResult with
        | Some chartData =>
            mkLoaderResponse 200
              (sent (mkLoaderData currentPrices chartData chartAssetName))
        | None => errorResponse
        end
      else
        mkLoaderResponse 200
          (sent (mkLoaderData currentPrices []
                   (if wanted then chartAssetName else "N/A")))
  | _, _, _, _ => errorResponse
  end.

End Loader.

(** ** A platform and data for the examples *)

Definition digit_of (c : ascii) : option Z :=
  let n := Z.of_N (N_of_ascii c) in
  if ((48 <=? n) && (n <=? 57))%Z then Some (n - 48)%Z else None.

Fixpoint digits_value (s : string) (acc : Z) : option Z :=
  match s with
  | EmptyString => Some acc
  | String c rest =>
      match digit_of c with
      | Some d => digits_value rest (10 * acc + d)
      | None => None
      end
  end.

(** Reads a string of one to fifteen decimal digits, on which it agrees with
    [parseFloat] (such an integer is below 2^53); [NaN] on any other string. *)
Definition parseDigits (s : string) : float :=
  if (0 <? String.length s)%nat && (String.length s <=? 15)%nat then
    match digits_value s 0 with
    | Some z => PrimFloat.of_uint63 (Uint63.of_Z z)
    | None => PrimFloat.nan
    end
  else PrimFloat.nan.

#[global, refine] Instance examplePlatform : Platform := {|
  parseFloatString := parseDigits;
  toLocaleDateString := fun _ => "1/1/2025"
|}.
Proof. reflexivity. Defined.

(** The examples keep to vendor answers of the declared shapes, on which
    none of these conversions is called. *)
#[global] Instance exampleCoercions : Coercions := {|
  stringToNumber := parseDigits;
  numberToString := fun _ => "NaN";
  dateText := fun _ => "Invalid Date"
|}.

Module Ex.

Definition bitcoin := mkAsset "bitcoin" crypto "BTC" "Bitcoin" 2 None None.
Definition ethereum := mkAsset "ethereum" crypto "ETH" "Ether" 1 None None.
Definition zzzz := mkAsset "ZZZZ" stock "ZZZZ" "No such ticker" 1 None None.
Definition flat := mkAsset "asset-real_estate-1" real_estate "FLAT" "Flat" 2 None (Some 300000%float).
Definition plot := mkAsset "asset-real_estate-2" real_estate "PLOT" "Plot" 0 None (Some 80000%float).
Definition stamps := mkAsset "asset-other-1" other "STMP" "Stamps" 4 None None.
Definition gift := mkAsset "asset-other-2" other "GIFT" "Gift" 1 (Some 0%float) None.

Definition prices : AllPrices := {[ "bitcoin" := mkPrice 50000 ]}.

Definition series : list ChartPoint :=
  [mkPoint "1/1/2025" 40000; mkPoint "1/2/2025" 41000].

(** 1 January 2025, 00:00 UTC. *)
Definition start : World := mkWorld 1735689600000 [].

(** A vendor that answers every request at once with the same response. *)
Definition always {B} (r : Response B) : Vendor B :=
  fun _ _ => mkReply 0 (Some r).

Definition http500 {B} : Response B := mkResponse false None.
Definition json200 {B} (v : B) : Response B := mkResponse true (Some v).

(** Alpha Vantage's answer for a ticker it does not know. *)
Definition emptyQuote : jsval := VObj [("Global Quote", VObj [])].
Definition ibmQuote : jsval :=
  VObj [("Global Quote", VObj [("01. symbol", VStr "IBM"); ("05. price", VStr "190")])].
Definition goldSpot : jsval := VObj [("metal", VStr "XAU"); ("price", VNum 2000)].
Definition coins : jsval :=
  VObj [("ethereum", VObj [("usd", VNum 3000)]);
        ("bitcoin", VObj [("usd", VNum 50000)])].
(** One closed day, two days before [start]. *)
Definition history : jsval :=
  VObj [("prices", VArr [VArr [VNum 1735516800000; VNum 40000]])].

(** Every vendor answers; Alpha Vantage knows no ticker. *)
Definition market : Vendors :=
  mkVendors (always (json200 coins)) (always (json200 history))
    (always (json200 emptyQuote)) (always (json200 goldSpot)).

(** As [market], with CoinGecko's price endpoint answering 500 and Alpha
    Vantage quoting IBM. *)
Definition cryptoDown : Vendors :=
  mkVendors (always http500) (always (json200 history))
    (always (json200 ibmQuote)) (always (json200 goldSpot)).

(** As [cryptoDown], with the price endpoint up and the history endpoint
    answering 500. *)
Definition historyDown : Vendors :=
  mkVendors (always (json200 coins)) (always http500)
    (always (json200 ibmQuote)) (always (json200 goldSpot)).

End Ex.

(** ** String builtins used by the form and by the loader

    On ASCII strings, which the ids are: [trim] strips TAB, LF, VT, FF, CR
    and the space from both ends, [toLowerCase] maps A-Z, and
    [GoldApi.toUpperCase] above maps a-z. *)

Module Str.

Definition is_space (c : ascii) : bool :=
  let n := N_of_ascii c in
  ((n =? 32) || ((9 <=? n) && (n <=? 13)))%N.

Fixpoint trimStart (s : string) : string :=
  match s with
  | EmptyString => EmptyString
  | String c rest => if is_space c then trimStart rest else s
  end.

Fixpoint trimEnd (s : string) : string :=
  match s with
  | EmptyString => EmptyString
  | String c rest =>
      match trimEnd rest with
      | EmptyString => if is_space c then EmptyString else String c EmptyString
      | kept => String c kept
      end
  end.

(** [s.trim()] *)
Definition trim (s : string) : string := trimEnd (trimStart s).

Definition lower_ascii (c : ascii) : ascii :=
  let n := N_of_ascii c in
  if ((65 <=? n) && (n <=? 90))%N then ascii_of_N (n + 32) else c.

(** [s.toLowerCase()] *)
Fixpoint toLowerCase (s : string) : string :=
  match s with
  | EmptyString => EmptyString
  | String c rest => String (lower_ascii c) (toLowerCase rest)
  end.

Definition is_comma (c : ascii) : bool := (N_of_ascii c =? 44)%N.

(** [s.split(',')]: never empty; [""] for the empty string. *)
Fixpoint split_comma (s : string) : list string :=
  match s with
  | EmptyString => [EmptyString]
  | String c rest =>
      if is_comma c then EmptyString :: split_comma rest
      else
        match split_comma rest with
        | first :: others => String c first :: others
        | [] => [String c EmptyString]
        end
  end.

Fixpoint has_comma (s : string) : bool :=
  match s with
  | EmptyString => false
  | String c rest => is_comma c || has_comma rest
  end.

(** [/^\d{8}$/.test(s)] *)
Definition is_digit (c : ascii) : bool :=
  let n := N_of_ascii c in ((48 <=? n) && (n <=? 57))%N.

Fixpoint all_digits (s : string) : bool :=
  match s with
  | EmptyString => true
  | String c rest => is_digit c && all_digits rest
  end.

Definition eight_digits (s : string) : bool :=
  (String.length s =? 8)%nat && all_digits s.

End Str.

(** ** The add form ([handleAddAsset], lines 342-411) *)

(** What [formData.get] gives for each field: [None] for [null]. The type
    comes from a select over the five kinds. *)
Record Form := mkForm {
  f_id : option string;
  f_type : option AssetType;
  f_name : option string;
  f_symbol : option string;
  f_quantity : option string;
  f_purchaseValue : option string;
  f_currentValue : option string
}.

(** A field that is truthy: neither [null] nor empty. *)
Definition filled (o : option string) : option string :=
  match o with
  | Some s => if String.eqb s "" then None else Some s
  | None => None
  end.

Definition typeName (t : AssetType) : string :=
  match t with
  | crypto => "crypto"
  | stock => "stock"
  | commodity => "commodity"
  | real_estate => "real_estate"
  | other => "other"
  end.

(** [`asset-${type}-${Date.now()}`] *)
Definition generatedId (t : AssetType) (now : N) : string :=
  ("asset-" ++ typeName t ++ "-" ++ pretty now)%string.

Section AddForm.
Context `{Platform}.

(** Lines 346-395: the asset the handler builds from the form, [None] when
    it alerts and returns. [now] is the reading of [Date.now()]. *)
Definition buildAsset (form : Form) (now : N) : option Asset :=
  let quantity := parseFloatString (default "0" (filled (f_quantity form))) in
  let purchaseValue := parseFloatString <$> filled (f_purchaseValue form) in
  let manualCurrentValue := parseFloatString <$> filled (f_currentValue form) in
  match filled (f_name form), filled (f_symbol form), f_type form with
  | Some name, Some symbol, Some type =>
      if Num.isNaN quantity then None
      else
        (* the id after "Standardize ID based on type"; [None] on the alert *)
        let standardized : option string :=
          match filled (f_id form) with
          | Some given =>
              let id := Str.trim given in
              match type with
              | crypto => Some (Str.toLowerCase id)
              | stock => Some (GoldApi.toUpperCase id)
              | commodity =>
                  let id := GoldApi.toUpperCase id in
                  if is_XAU_or_XAG id then Some id else None
              | real_estate | other => Some id
              end
          | None => Some (default "" (f_id form))
          end in
        match standardized with
        | None => None
        | Some id =>
            let requiresFetchId :=
              match type with
              | crypto | stock => true
              | commodity => is_XAU_or_XAG id
              | real_estate | other => false
              end in
            if String.eqb id "" && requiresFetchId then None
            else
              let id :=
                if String.eqb id ""
                   && match type with
                      | real_estate | other | commodity => true
                      | crypto | stock => false
                      end
                then generatedId type now else id in
              Some (mkAsset id type symbol name quantity purchaseValue
                      match type with
                      | real_estate => manualCurrentValue
                      | _ => None
                      end)
        end
  | _, _, _ => None
  end.

(** The whole handler: nothing changes when the form is refused. *)
Definition submitForm (form : Form) (now : N) (st : Client) : Client :=
  match buildAsset form now with
  | Some newAsset => handleAddAsset newAsset st
  | None => st
  end.

End AddForm.

(** A user action on the holdings. *)
Inductive Action :=
| Add (newAsset : Asset)
| Remove (assetId : string).

Definition act (a : Action) (st : Client) : Client :=
  match a with
  | Add newAsset => handleAddAsset newAsset st
  | Remove assetId => handleRemoveAsset assetId st
  end.

Definition perform (actions : list Action) (st : Client) : Client :=
  List.fold_left (fun st a => act a st) actions st.

(** ** The loader's query parameters (lines 87-101) *)

(** [param ? param.split(',').filter(id => id.trim() !== '') : []] for the
    value [searchParams.get] returned. *)
Definition parseIds (param : option string) : list string :=
  match filled param with
  | Some p =>
      List.filter (fun id => negb (String.eqb (Str.trim id) "")) (Str.split_comma p)
  | None => []
  end.

Section LoaderParams.
Context `{Platform} `{Coercions}.

Definition loaderFromParams (vendors : Vendors) (w : World)
    (cryptoIdsParam stockSymbolsParam commoditySymbolsParam : option string)
    : LoaderResponse :=
  loader vendors w (parseIds cryptoIdsParam) (parseIds stockSymbolsParam)
    (parseIds commoditySymbolsParam).

End LoaderParams.

(** ** Needed ids of Effect 2 *)

(** The three id arrays of Effect 2, in holding order. *)
Definition cryptoIdsOf (portfolio : list Asset) : list string :=
  ids_of (fun asset => AssetType_eqb (type asset) crypto
                       && negb (String.eqb (id asset) "")) portfolio.

Definition stockSymbolsOf (portfolio : list Asset) : list string :=
  ids_of (fun asset => AssetType_eqb (type asset) stock
                       && negb (String.eqb (id asset) "")) portfolio.

Definition commoditySymbolsOf (portfolio : list Asset) : list string :=
  ids_of (fun asset => AssetType_eqb (type asset) commodity
                       && is_XAU_or_XAG (id asset)) portfolio.

Definition neededIdsOf (portfolio : list Asset) : list string :=
  cryptoIdsOf portfolio ++ stockSymbolsOf portfolio ++ commoditySymbolsOf portfolio.

(** [neededChartName]: the first of the sorted crypto ids. *)
Definition neededChartNameOf (portfolio : list Asset) : string :=
  match sort (cryptoIdsOf portfolio) with
  | first :: _ => first
  | [] => "N/A"
  end.

(** The query Effect 2 builds. *)
Definition queryOf (portfolio : list Asset) : string :=
  ("?index" ++ query_part "&cryptoIds=" (cryptoIdsOf portfolio)
     ++ query_part "&stockSymbols=" (stockSymbolsOf portfolio)
     ++ query_part "&commoditySymbols=" (commoditySymbolsOf portfolio))%string.

(** ** Historical commodity price ([fetchCommodityPriceOnDate], lines 130-189) *)

Definition dated_url (upperSymbol date : string) : string :=
  (GoldApi.API_BASE_URL ++ "/" ++ upperSymbol ++ "/USD/" ++ date)%string.

Definition fetchCommodityPriceOnDate
    (vendor : Vendor jsval) (symbol date : string) : M (option PriceData) :=
  let upperSymbol := GoldApi.toUpperCase symbol in
  if negb (GoldApi.supported upperSymbol) then mret None
  else if negb (Str.eight_digits date) then mret None
  else if String.eqb GoldApi.GOLDAPI_API_KEY ""
          || negb (String.prefix "goldapi-" GoldApi.GOLDAPI_API_KEY)
  then mret None
  else
    catch
      (response ← fetch vendor (dated_url upperSymbol date);
       if negb (ok response) then mret None
       else
         data ← json_of response;
         if GoldApi.isGoldApiError data then mret None
         else mret (mkPrice <$> GoldApi.spot_price data))
      (fun error => mret None).

(** ** The table cells (lines 517-551) *)

(** What a price or value cell shows: an amount, formatted with at most
    [digits] fraction digits, the waiting text (['Loading...'],
    ['Calculating...']), or ['N/A']. *)
Inductive Cell :=
| Amount (v : float) (digits : nat)
| Waiting
| NotAvailable.

Definition isLoadingPrice (s : FetcherState) (a : CalculatedAsset) : bool :=
  match s with
  | loading =>
      match type (asset_of a) with
      | crypto | stock => true
      | commodity => is_XAU_or_XAG (id (asset_of a))
      | real_estate | other => false
      end
  | idle | submitting => false
  end.

Definition isPriceUnavailable (s : FetcherState) (a : CalculatedAsset) : bool :=
  negb (bool_decide (is_Some (price a))) && negb (isLoadingPrice s a).

Definition priceCell (s : FetcherState) (a : CalculatedAsset) : Cell :=
  match price a with
  | Some p =>
      Amount p
        (if AssetType_eqb (type (asset_of a)) crypto && PrimFloat.ltb p 1%float
         then 8 else 2)%nat
  | None => if isLoadingPrice s a then Waiting else NotAvailable
  end.

Definition valueCell (s : FetcherState) (a : CalculatedAsset) : Cell :=
  match calculatedValue a with
  | Some v => Amount v 2
  | None => if isLoadingPrice s a then Waiting else NotAvailable
  end.

(** The holdings an action brings in are regular. *)
Definition regular_action (a : Action) : Prop :=
  match a with
  | Add newAsset => regular newAsset
  | Remove _ => True
  end.

(** ** More data for the examples *)

Module Ex2.

Definition bitcoinForm : Form :=
  mkForm (Some "  Bitcoin ") (Some crypto) (Some "Bitcoin") (Some "BTC")
    (Some "2") None None.

Definition sampleTime : N := 1735689600000.

(** A series whose last point is two hours before [Ex.start]. *)
Definition twoHourOld : jsval :=
  VObj [("prices", VArr [VArr [VNum 1735516800000; VNum 40000];
                         VArr [VNum 1735682400000; VNum 41000]]);
        ("market_caps", VArr [VArr [VNum 1735516800000; VNum 1];
                              VArr [VNum 1735682400000; VNum 2]])].

(** As [Ex.market], with the history endpoint answering 200 and an empty
    object. *)
Definition historyEmpty : Vendors :=
  mkVendors (Ex.always (Ex.json200 Ex.coins)) (Ex.always (Ex.json200 (VObj [])))
    (Ex.always (Ex.json200 Ex.ibmQuote)) (Ex.always (Ex.json200 Ex.goldSpot)).

End Ex2.

(** Tactics for the examples: a holding, and a list of holdings, with
    concrete numbers is [regular]. *)
Ltac regular_holding :=
  split;
  [ first [left; reflexivity | right; split; reflexivity]
  | split; intros v Hv;
    first [discriminate Hv | injection Hv as <-; split; reflexivity] ].

Ltac regular_holdings :=
  repeat (apply List.Forall_cons; [regular_holding|]); apply List.Forall_nil.

(** * Properties *)

(** ** Helper lemmas *)

Lemma is0_not_gt0 (x : float) : Num.is0 x = true -> Num.gt0 x = false.
Proof.
  unfold Num.is0, Num.gt0.
  rewrite FloatAxioms.eqb_spec, FloatAxioms.ltb_spec.
  change (Prim2SF 0%float) with (S754_zero false).
  destruct (Prim2SF x) as [s| s | |s m e]; try destruct s; cbn; congruence.
Qed.

Lemma lookup_List_map {A B} (f : A -> B) (l : list A) (i : nat) :
  List.map f l !! i = f <$> l !! i.
Proof.
  revert i. induction l as [|x l IH]; intros [|i]; cbn; auto.
Qed.

Lemma calculated_lookup portfolio prices i asset :
  portfolio !! i = Some asset ->
  portfolioWithCalculatedValues portfolio prices !! i = Some (calculate prices asset).
Proof.
  intros Hi. unfold portfolioWithCalculatedValues.
  rewrite lookup_List_map, Hi. reflexivity.
Qed.

Lemma calculate_asset_of prices asset : asset_of (calculate prices asset) = asset.
Proof.
  unfold calculate, read.
  destruct (prices !! id asset), (inherited (id asset)), (type asset),
    (currentValue asset); reflexivity.
Qed.

(** ** Valuation *)

(** C4. A crypto, stock or commodity holding whose id has an entry in the
    price map is valued at that entry's price: the unit price is the entry's
    [usd] and the total is [quantity * usd]. *)
Theorem C4_fetchable_valuation
    (portfolio : list Asset) (currentPrices : AllPrices)
    (i : nat) (asset : Asset) (d : PriceData) :
  portfolio !! i = Some asset ->
  type asset = crypto \/ type asset = stock \/ type asset = commodity ->
  currentPrices !! id asset = Some d ->
  exists c,
    portfolioWithCalculatedValues portfolio currentPrices !! i = Some c
    /\ asset_of c = asset
    /\ price c = Some (usd d)
    /\ calculatedValue c = Some (Num.mul (quantity asset) (usd d)).
Proof.
  intros Hi Hkind Hprice.
  exists (calculate currentPrices asset).
  split; [now apply calculated_lookup|].
  split; [apply calculate_asset_of|].
  unfold calculate, read. rewrite Hprice.
  destruct Hkind as [-> | [-> | ->]]; cbn; auto.
Qed.

Lemma C4_witness :
  exists c,
    portfolioWithCalculatedValues [Ex.bitcoin] Ex.prices !! 0%nat = Some c
    /\ asset_of c = Ex.bitcoin
    /\ price c = Some 50000%float
    /\ calculatedValue c = Some 100000%float.
Proof.
  apply (C4_fetchable_valuation [Ex.bitcoin] Ex.prices 0 Ex.bitcoin (mkPrice 50000)).
  - reflexivity.
  - left; reflexivity.
  - vm_compute; reflexivity.
Defined.

(** C7. A real-estate holding with a manual current value is valued at that
    value; its unit price is the value divided by the quantity when the
    quantity is positive, and is undefined otherwise, in particular when the
    quantity is zero: no division by zero is performed. *)
Theorem C7_real_estate_valuation
    (portfolio : list Asset) (currentPrices : AllPrices)
    (i : nat) (asset : Asset) (manual : float) :
  portfolio !! i = Some asset ->
  type asset = real_estate ->
  currentValue asset = Some manual ->
  exists c,
    portfolioWithCalculatedValues portfolio currentPrices !! i = Some c
    /\ calculatedValue c = Some manual
    /\ price c = (if Num.gt0 (quantity asset)
                  then Some (Num.div manual (quantity asset)) else None)
    /\ (Num.is0 (quantity asset) = true -> price c = None).
Proof.
  intros Hi Hkind Hmanual.
  exists (calculate currentPrices asset).
  split; [now apply calculated_lookup|].
  assert (Hc : calculate currentPrices asset =
               mkCalculated asset
                 (if Num.gt0 (quantity asset)
                  then Some (Num.div manual (quantity asset)) else None)
                 (Some manual)).
  { unfold calculate, read. rewrite Hkind, Hmanual.
    destruct (currentPrices !! id asset), (inherited (id asset)); reflexivity. }
  rewrite Hc. cbn [calculatedValue price].
  split; [reflexivity|]. split; [reflexivity|].
  intros Hz. rewrite (is0_not_gt0 _ Hz). reflexivity.
Qed.

Lemma C7_witness :
  (exists c,
     portfolioWithCalculatedValues [Ex.flat; Ex.plot] Ex.prices !! 0%nat = Some c
     /\ calculatedValue c = Some 300000%float
     /\ price c = Some 150000%float)
  /\ (exists c,
     portfolioWithCalculatedValues [Ex.flat; Ex.plot] Ex.prices !! 1%nat = Some c
     /\ calculatedValue c = Some 80000%float
     /\ price c = None).
Proof.
  split.
  - destruct (C7_real_estate_valuation [Ex.flat; Ex.plot] Ex.prices 0 Ex.flat
                300000%float eq_refl eq_refl eq_refl) as (c & Hc & Hv & Hp & _).
    exists c. repeat split; assumption.
  - destruct (C7_real_estate_valuation [Ex.flat; Ex.plot] Ex.prices 1 Ex.plot
                80000%float eq_refl eq_refl eq_refl) as (c & Hc & Hv & _ & Hz).
    exists c. repeat split; try assumption. apply Hz. reflexivity.
Defined.

(** C8. A holding of kind [other] is valued at its purchase value when that
    is defined and at the placeholder [quantity * 50] otherwise; its unit
    price is that total divided by the quantity when the quantity is positive
    and is undefined otherwise. *)
Theorem C8_other_valuation
    (portfolio : list Asset) (currentPrices : AllPrices)
    (i : nat) (asset : Asset) :
  portfolio !! i = Some asset ->
  type asset = other ->
  let total :=
    match purchaseValue asset with
    | Some pv => pv
    | None => Num.mul (quantity asset) 50%float
    end in
  exists c,
    portfolioWithCalculatedValues portfolio currentPrices !! i = Some c
    /\ calculatedValue c = Some total
    /\ price c = (if Num.gt0 (quantity asset)
                  then Some (Num.div total (quantity asset)) else None).
Proof.
  intros Hi Hkind total.
  exists (calculate currentPrices asset).
  split; [now apply calculated_lookup|].
  unfold calculate, read. rewrite Hkind.
  destruct (currentPrices !! id asset), (inherited (id asset)),
    (currentValue asset); cbn; auto.
Qed.

Lemma C8_witness :
  (exists c,
     portfolioWithCalculatedValues [Ex.stamps; Ex.gift] Ex.prices !! 0%nat = Some c
     /\ calculatedValue c = Some 200%float
     /\ price c = Some 50%float)
  /\ (exists c,
     portfolioWithCalculatedValues [Ex.stamps; Ex.gift] Ex.prices !! 1%nat = Some c
     /\ calculatedValue c = Some 0%float
     /\ price c = Some 0%float).
Proof.
  split.
  - apply (C8_other_valuation [Ex.stamps; Ex.gift] Ex.prices 0 Ex.stamps);
      reflexivity.
  - apply (C8_other_valuation [Ex.stamps; Ex.gift] Ex.prices 1 Ex.gift);
      reflexivity.
Defined.

(** ** Chart data *)

Lemma find_calculated prices name (portfolio : list Asset) :
  List.find (fun a => String.eqb (id (asset_of a)) name)
    (portfolioWithCalculatedValues portfolio prices)
  = calculate prices <$> List.find (fun a => String.eqb (id a) name) portfolio.
Proof.
  unfold portfolioWithCalculatedValues.
  induction portfolio as [|a l IH]; cbn; [reflexivity|].
  rewrite calculate_asset_of.
  destruct (String.eqb (id a) name); [reflexivity | exact IH].
Qed.

Lemma find_none_absent name (portfolio : list Asset) :
  (forall a, In a portfolio -> id a <> name) ->
  List.find (fun a => String.eqb (id a) name) portfolio = None.
Proof.
  intros Habsent. induction portfolio as [|a l IH]; cbn; [reflexivity|].
  destruct (String.eqb_spec (id a) name) as [Heq|_].
  - exfalso. apply (Habsent a); [now left | exact Heq].
  - apply IH. intros b Hb. apply Habsent. now right.
Qed.

(** C10. When the chart's asset is found in the portfolio and the server
    series is not empty, every rendered point keeps its date and carries the
    historical price multiplied by the asset's current quantity; when no
    holding has the chart's id, or the series is empty, or the chart name is
    one of the markers ['N/A'], ['Error'] or empty, the rendered data is
    empty. *)
Theorem C10_chart_scaled_by_current_quantity
    (portfolio : list Asset) (currentPrices : AllPrices)
    (serverChartData : list ChartPoint) (chartAssetName : string) :
  let rendered :=
    clientChartData (portfolioWithCalculatedValues portfolio currentPrices)
      serverChartData chartAssetName in
  (forall a,
      chartable chartAssetName = true ->
      List.find (fun a => String.eqb (id a) chartAssetName) portfolio = Some a ->
      serverChartData <> [] ->
      rendered
      = List.map (fun entry => mkPoint (date entry) (Num.mul (value entry) (quantity a)))
          serverChartData)
  /\ ((forall a, In a portfolio -> id a <> chartAssetName) -> rendered = [])
  /\ (serverChartData = [] -> rendered = [])
  /\ (chartable chartAssetName = false -> rendered = []).
Proof.
  cbn zeta. unfold clientChartData, assetForChart.
  rewrite find_calculated. repeat split.
  - intros a Hname Hfind Hseries. rewrite Hname, Hfind. cbn.
    destruct serverChartData as [|e rest]; [congruence|]. cbn.
    unfold scale_entry. now rewrite calculate_asset_of.
  - intros Habsent. rewrite (find_none_absent _ _ Habsent).
    now destruct (chartable chartAssetName).
  - intros ->. destruct (chartable chartAssetName); [|reflexivity].
    now destruct (calculate currentPrices <$> _).
  - intros ->. reflexivity.
Qed.

Lemma C10_witness :
  clientChartData (portfolioWithCalculatedValues [Ex.bitcoin] Ex.prices)
    Ex.series "bitcoin"
  = [mkPoint "1/1/2025" 80000; mkPoint "1/2/2025" 82000]
  /\ clientChartData (portfolioWithCalculatedValues [Ex.bitcoin] Ex.prices)
       Ex.series "ethereum" = [].
Proof.
  destruct (C10_chart_scaled_by_current_quantity [Ex.bitcoin] Ex.prices
              Ex.series "bitcoin") as (Hscaled & _).
  destruct (C10_chart_scaled_by_current_quantity [Ex.bitcoin] Ex.prices
              Ex.series "ethereum") as (_ & Habsent & _).
  split.
  - rewrite (Hscaled Ex.bitcoin); [reflexivity | reflexivity | reflexivity | discriminate].
  - apply Habsent. intros a [<- | []]. discriminate.
Defined.

(** ** Add and remove *)

Lemma filter_fresh assetId (l : list Asset) :
  List.existsb (fun asset => String.eqb (id asset) assetId) l = false ->
  List.filter (fun asset => negb (String.eqb (id asset) assetId)) l = l.
Proof.
  induction l as [|a l IH]; cbn; [reflexivity|].
  destruct (String.eqb (id a) assetId); cbn; [discriminate|].
  intros Hl. now rewrite IH.
Qed.

Lemma filter_app_fresh (h : Asset) (l : list Asset) :
  List.existsb (fun asset => String.eqb (id asset) (id h)) l = false ->
  List.filter (fun asset => negb (String.eqb (id asset) (id h))) (l ++ [h]) = l.
Proof.
  intros Hfresh. rewrite List.filter_app, (filter_fresh _ _ Hfresh). cbn.
  rewrite String.eqb_refl. cbn. apply app_nil_r.
Qed.

(** Adding a holding whose id is already present changes nothing. *)
Lemma add_existing (h : Asset) (st : Client) :
  List.existsb (fun asset => String.eqb (id asset) (id h)) (portfolio st) = true ->
  handleAddAsset h st = st.
Proof. intros Hdup. unfold handleAddAsset. now rewrite Hdup. Qed.

(** C5, as stated, fails: adding a holding whose id is already present is
    refused, and the removal that follows deletes the holding that was
    there. *)
Lemma C5_counterexample :
  ~ (forall (st : Client) (h : Asset),
        in_sync st ->
        localStorage (handleRemoveAsset (id h) (handleAddAsset h st))
        = localStorage st).
Proof.
  intros Hclaim.
  specialize (Hclaim
    (mkClient [Ex.bitcoin] (saveClientPortfolio [plain Ex.bitcoin]))
    (mkAsset "bitcoin" crypto "BTC" "Bitcoin again" 5 None None)
    eq_refl).
  vm_compute in Hclaim. discriminate Hclaim.
Qed.

(** C5, amended. From a state whose storage is in sync with the portfolio,
    adding a holding whose id no holding has yet and then removing that id
    restores both the portfolio and the stored holdings. *)
Theorem C5_add_then_remove_fresh (st : Client) (h : Asset) :
  in_sync st ->
  List.existsb (fun asset => String.eqb (id asset) (id h)) (portfolio st) = false ->
  handleRemoveAsset (id h) (handleAddAsset h st) = st.
Proof.
  intros Hsync Hfresh.
  unfold handleAddAsset. rewrite Hfresh.
  unfold handleRemoveAsset. cbn [portfolio].
  rewrite (filter_app_fresh _ _ Hfresh).
  destruct st as [p s]. unfold in_sync in Hsync. cbn in *. now rewrite Hsync.
Qed.

Lemma C5_witness :
  handleRemoveAsset "ethereum"
    (handleAddAsset Ex.ethereum
       (mkClient [Ex.bitcoin] (saveClientPortfolio [plain Ex.bitcoin])))
  = mkClient [Ex.bitcoin] (saveClientPortfolio [plain Ex.bitcoin]).
Proof.
  apply (C5_add_then_remove_fresh
           (mkClient [Ex.bitcoin] (saveClientPortfolio [plain Ex.bitcoin]))
           Ex.ethereum); reflexivity.
Defined.

(** ** Persistence *)

(** C6 fails on the code at a purchase value of [0]: the holding is saved with
    ["purchaseValue": 0], and [getClientPortfolio] reads it back with
    [purchaseValue] undefined, whatever the platform's [parseFloat]. *)
Theorem C6_zero_purchaseValue_not_restored `{Platform} :
  getClientPortfolio (saveClientPortfolio [plain Ex.gift])
  = [mkAsset "asset-other-2" other "GIFT" "Gift" 1 None None]
  /\ getClientPortfolio (saveClientPortfolio [plain Ex.gift]) <> [Ex.gift].
Proof.
  split; [reflexivity | discriminate].
Qed.

Lemma storable_roundtrip `{Platform} (f : float) :
  storable f ->
  JS.truthy (stringify_number f) = true
  /\ JS.parseFloat (stringify_number f) = f.
Proof.
  intros [Hfinite Hzero]. unfold stringify_number. rewrite Hfinite, Hzero.
  cbn. unfold Num.truthy. rewrite Hzero.
  unfold Num.isFinite in Hfinite. unfold Num.isNaN.
  destruct (PrimFloat.is_nan f); [discriminate|].
  split; [reflexivity|]. unfold Num.is0 in Hzero. now rewrite Hzero.
Qed.

Lemma optional_roundtrip `{Platform} (o : option float) :
  (forall v, o = Some v -> storable v) ->
  (if JS.truthy (stringify_optional o)
   then Some (JS.parseFloat (stringify_optional o)) else None) = o.
Proof.
  intros Hstorable. destruct o as [v|]; [|reflexivity]. cbn.
  destruct (storable_roundtrip v (Hstorable v eq_refl)) as [-> ->]. reflexivity.
Qed.

(** Away from the zero of the optional fields (and from non-finite numbers
    and the negative zero), saving and loading restores the holdings. *)
Lemma regular_roundtrip `{Platform} (portfolio : list Asset) :
  Forall regular portfolio ->
  getClientPortfolio (saveClientPortfolio (List.map plain portfolio)) = portfolio.
Proof.
  intros Hregular. cbn. rewrite List.map_map.
  induction Hregular as [|a l (Hq & Hp & Hc) _ IH]; [reflexivity|].
  cbn [List.map]. rewrite IH. f_equal.
  unfold revive, strip, plain. cbn [asset_of s_id s_type s_symbol s_name
    s_quantity s_purchaseValue s_currentValue].
  rewrite (optional_roundtrip _ Hp), (optional_roundtrip _ Hc).
  destruct a as [i t s n q pv cv]. cbn in Hq |- *. f_equal.
  destruct Hq as [-> | Hq].
  - cbn. apply parseFloatString_0.
  - destruct (storable_roundtrip q Hq) as [Htruthy Hparse].
    unfold JS.or. now rewrite Htruthy.
Qed.

(** ** Refresh controller *)

Lemma insert_sorted_perm (x : string) (l : list string) :
  Permutation (x :: l) (insert_sorted x l).
Proof.
  induction l as [|y l IH]; cbn; [reflexivity|].
  destruct (String.leb x y); [reflexivity|].
  rewrite <- IH. apply perm_swap.
Qed.

(** [sort] reorders, without adding or dropping an id. *)
Lemma sort_perm (l : list string) : Permutation l (sort l).
Proof.
  induction l as [|x l IH]; cbn; [reflexivity|].
  rewrite <- insert_sorted_perm. now constructor.
Qed.

Lemma insert_sorted_sorted (x : string) (l : list string) :
  Sorted (fun a b => String.leb a b = true) l ->
  Sorted (fun a b => String.leb a b = true) (insert_sorted x l).
Proof.
  induction 1 as [|y l Hl IH Hhd]; cbn.
  - repeat constructor.
  - destruct (String.leb x y) eqn:Hxy.
    + constructor; [now constructor | now constructor].
    + constructor; [exact IH|].
      assert (Hyx : String.leb y x = true)
        by (destruct (String.leb_total x y); congruence).
      destruct Hhd as [|z l' Hyz]; cbn; [now constructor|].
      destruct (String.leb x z); now constructor.
Qed.

(** [sort] yields its ids in the order of their code units. *)
Lemma sort_sorted (l : list string) :
  Sorted (fun a b => String.leb a b = true) (sort l).
Proof.
  induction l as [|x l IH]; cbn; [constructor | now apply insert_sorted_sorted].
Qed.

(** No run is issued while one is in flight. *)
Lemma effect2_busy {P} (portfolio : list Asset) (priceFetcher : Fetcher P)
    (initialLoaderData : LoaderData P) :
  state priceFetcher <> idle ->
  effect2 portfolio priceFetcher initialLoaderData = None.
Proof.
  intros Hbusy. unfold effect2.
  destruct (state priceFetcher); [congruence | |];
    now rewrite andb_false_r.
Qed.

(** C2 fails on the code. With every price returned, a portfolio whose
    first crypto holding is not the first in sort order is refreshed again
    after each completed run: the run charts the first id of the query
    ([ethereum]), and the next evaluation needs the first id of the sorted
    array ([bitcoin]). With a ticker the vendor has no quote for, the keys of
    the returned prices never equal the needed ids, and the evaluation after
    each completed run issues the same query again. *)
Theorem C2_refresh_reissued_for_unchanged_ids :
  let initial := body (loader Ex.market Ex.start [] [] []) in
  (let portfolio := [Ex.ethereum; Ex.bitcoin] in
   let query := "?index&cryptoIds=ethereum,bitcoin" in
   let completed := loader Ex.market Ex.start ["ethereum"; "bitcoin"] [] [] in
   effect2 portfolio (mkFetcher idle None) initial = Some query
   /\ status completed = 200%N
   /\ sort (keys (currentPrices (body completed))) = ["bitcoin"; "ethereum"]
   /\ chartAssetName (body completed) = "ethereum"
   /\ effect2 portfolio (mkFetcher idle (Some (body completed))) initial = Some query)
  /\
  (let portfolio := [Ex.zzzz] in
   let query := "?index&stockSymbols=ZZZZ" in
   let completed := loader Ex.market Ex.start [] ["ZZZZ"] [] in
   effect2 portfolio (mkFetcher idle None) initial = Some query
   /\ status completed = 200%N
   /\ keys (currentPrices (body completed)) = []
   /\ effect2 portfolio (mkFetcher idle (Some (body completed))) initial = Some query).
Proof.
  vm_compute. repeat split.
Qed.

(** ** Assignments and reply traces *)

Lemma lookup_assign (key k : string) (d : PriceData) (results : AllPrices) :
  assign key d results !! k
  = if bool_decide (key = k) && negb (String.eqb key "__proto__")
    then Some d else results !! k.
Proof.
  unfold assign. destruct (String.eqb key "__proto__"); cbn [negb].
  - now rewrite andb_false_r.
  - rewrite andb_true_r. case_bool_decide as Hk.
    + subst. apply lookup_insert_eq.
    + now apply lookup_insert_ne.
Qed.

(** ** The equity adapter *)

Section StockAdapter.
Context `{Platform} (vendor : Vendor jsval).
Import AlphaVantage.

Lemma quote_price_some (data : jsval) (p : float) :
  quote_price data = Ok (Some p) ->
  isAlphaVantageError data = false
  /\ JS.truthy (priceField data) = true
  /\ p = JS.parseFloat (priceField data)
  /\ Num.isNaN p = false.
Proof.
  unfold quote_price, priceField.
  destruct (isAlphaVantageError data).
  { repeat case_match; discriminate. }
  destruct (JS.get "Global Quote" data) as [globalQuote|]; [|discriminate].
  destruct (JS.truthy globalQuote); cbn [andb]; [|discriminate].
  destruct (JS.truthy (default VUndefined (JS.get "05. price" globalQuote)));
    [|discriminate].
  destruct (Num.isNaN (JS.parseFloat _)) eqn:Hnan; cbn [negb]; [discriminate|].
  intros [= <-]. auto.
Qed.

Lemma priced_quote_price (data : jsval) :
  isAlphaVantageError data = false ->
  JS.truthy (priceField data) = true ->
  Num.isNaN (JS.parseFloat (priceField data)) = false ->
  quote_price data = Ok (Some (JS.parseFloat (priceField data))).
Proof.
  unfold quote_price, priceField. intros -> Htruthy Hnan.
  destruct (JS.get "Global Quote" data) as [globalQuote|]; [|discriminate].
  destruct (JS.truthy globalQuote); [|discriminate].
  cbn [andb]. rewrite Htruthy. now rewrite Hnan.
Qed.

Lemma fetchQuote_spec (symbol : string) (w : World) :
  exists quoted,
    fetchQuote vendor symbol w
    = (Ok quoted, answered vendor (delayed w) (quote_url symbol))
    /\ (forall p, quoted = Some p ->
          priced (vendor (delayed w) (quote_url symbol)) p).
Proof.
  unfold fetchQuote, catch, fetchWithDelay, mbind, M_bind, sleep, fetch.
  fold (delayed w). fold (answered vendor (delayed w) (quote_url symbol)).
  unfold priced.
  destruct (response (vendor (delayed w) (quote_url symbol))) as [r|] eqn:Hr.
  2:{ exists None. split; [reflexivity | discriminate]. }
  destruct (ok r) eqn:Hok; cbn [negb].
  2:{ exists None. split; [reflexivity | discriminate]. }
  unfold json_of. destruct (json r) as [data|] eqn:Hjson.
  2:{ exists None. split; [reflexivity | discriminate]. }
  cbn. unfold lift.
  destruct (quote_price data) as [[p|]|e] eqn:Hq.
  - exists (Some p). split; [reflexivity|].
    intros p' [= <-]. exists r, data.
    destruct (quote_price_some _ _ Hq) as (? & ? & ? & ?). auto 10.
  - exists None. split; [reflexivity | discriminate].
  - exists None. split; [reflexivity | discriminate].
Qed.

Lemma fetchQuote_priced (symbol : string) (w : World) (p : float) :
  priced (vendor (delayed w) (quote_url symbol)) p ->
  fetchQuote vendor symbol w
  = (Ok (Some p), answered vendor (delayed w) (quote_url symbol)).
Proof.
  intros (r & data & Hr & Hok & Hjson & Herr & Htruthy & -> & Hnan).
  unfold fetchQuote, catch, fetchWithDelay, mbind, M_bind, sleep, fetch.
  fold (delayed w). fold (answered vendor (delayed w) (quote_url symbol)).
  rewrite Hr, Hok. cbn [negb]. unfold json_of. rewrite Hjson. cbn.
  unfold lift. now rewrite (priced_quote_price data Herr Htruthy Hnan).
Qed.

Lemma stock_priced_not_degraded (reply : Reply jsval) (p : float) :
  priced reply p -> ~ degraded reply.
Proof.
  intros (r & data & Hr & Hok & Hjson & Herr & Htruthy & -> & Hnan).
  unfold degraded. rewrite Hr, Hjson.
  intros [Hbad | [Hbad | [Hbad | Hbad]]]; congruence.
Qed.

(** Every reply is one with a price or one without. *)
Lemma stock_degraded_or_priced (reply : Reply jsval) :
  degraded reply \/ exists p, priced reply p.
Proof.
  unfold degraded, priced.
  destruct (response reply) as [r|] eqn:Hr; [|now left].
  destruct (ok r) eqn:Hok; [|left; now left].
  destruct (json r) as [data|] eqn:Hjson; [|left; now right].
  destruct (isAlphaVantageError data) eqn:Herr; [left; right; now left|].
  destruct (JS.truthy (priceField data)) eqn:Htruthy;
    [|left; right; right; now left].
  destruct (Num.isNaN (JS.parseFloat (priceField data))) eqn:Hnan;
    [left; right; right; now right|].
  right. exists (JS.parseFloat (priceField data)), r, data. auto 10.
Qed.

(** One iteration stores the price its reply carries, and nothing when the
    reply carries none. *)
Lemma fetchQuote_cases (symbol : string) (w : World) :
  exists quoted,
    fetchQuote vendor symbol w
    = (Ok quoted, answered vendor (delayed w) (quote_url symbol))
    /\ match quoted with
       | Some p => priced (vendor (delayed w) (quote_url symbol)) p
       | None => degraded (vendor (delayed w) (quote_url symbol))
       end.
Proof.
  destruct (fetchQuote_spec symbol w) as (quoted & Hrun & Hpriced).
  exists quoted. split; [exact Hrun|].
  destruct quoted as [p|]; [now apply Hpriced|].
  destruct (stock_degraded_or_priced (vendor (delayed w) (quote_url symbol)))
    as [Hd | [p Hp]]; [exact Hd|].
  rewrite (fetchQuote_priced symbol w p Hp) in Hrun. discriminate.
Qed.


Lemma stock_fetchEach_spec (symbols : list string) :
  forall (results : AllPrices) (w : World),
  exists results' w',
    fetchEach vendor symbols results w = (Ok results', w')
    /\ log w' = log w ++ events symbols
    /\ (clock w + DELAY * N.of_nat (List.length symbols) <= clock w')%N
    /\ results' !! "__proto__" = results !! "__proto__"
    /\ (forall k, k <> "__proto__" -> results' !! k = None ->
          results !! k = None
          /\ forall reply, In (k, reply) (replies vendor symbols w) -> degraded reply)
    /\ (forall k d, k <> "__proto__" -> results' !! k = Some d ->
          (results !! k = Some d
           /\ forall reply, In (k, reply) (replies vendor symbols w) -> degraded reply)
          \/ exists before reply after,
               replies vendor symbols w = before ++ (k, reply) :: after
               /\ priced reply (usd d)
               /\ forall reply', In (k, reply') after -> degraded reply').
Proof.
  induction symbols as [|symbol rest IH]; intros results w.
  - exists results, w. cbn. rewrite app_nil_r.
    split; [reflexivity|]. split; [reflexivity|]. split; [lia|].
    split; [reflexivity|].
    split; [intros k _ Hk; split; [exact Hk | intros reply []]|].
    intros k d _ Hk. left. split; [exact Hk | intros reply []].
  - destruct (fetchQuote_cases symbol w) as (quoted & Hrun & Hquoted).
    set (results1 := match quoted with
                     | Some price => assign symbol (mkPrice price) results
                     | None => results
                     end).
    destruct (IH results1 (answered vendor (delayed w) (quote_url symbol)))
      as (results' & w' & Hrest & Hlog & Hclock & Hproto & Hnone & Hsome).
    exists results', w'.
    split. { cbn [fetchEach]. unfold mbind, M_bind at 1. rewrite Hrun. exact Hrest. }
    split. { rewrite Hlog. cbn. rewrite <- !app_assoc. reflexivity. }
    split. { cbn in Hclock |- *. lia. }
    split.
    { rewrite Hproto. subst results1. destruct quoted as [price|]; [|reflexivity].
      rewrite lookup_assign. case_bool_decide as Hk; [|reflexivity].
      subst symbol. reflexivity. }
    cbn [replies].
    split.
    + intros k Hk Hnone'. destruct (Hnone k Hk Hnone') as [H1 Hdeg].
      subst results1. destruct quoted as [price|].
      * rewrite lookup_assign in H1. case_bool_decide as Hsym.
        -- subst symbol. apply String.eqb_neq in Hk. rewrite Hk in H1.
           discriminate.
        -- cbn [andb] in H1. split; [exact H1|].
           intros reply [[= Heq _] | Hin]; [congruence | now apply Hdeg].
      * split; [exact H1|].
        intros reply [[= _ <-] | Hin]; [exact Hquoted | now apply Hdeg].
    + intros k d Hk Hsome'.
      destruct (Hsome k d Hk Hsome') as [[H1 Hdeg] | (before & reply & after & Heq & Hp & Hafter)].
      2:{ right. exists ((symbol, vendor (delayed w) (quote_url symbol)) :: before),
            reply, after. rewrite Heq. auto. }
      subst results1. destruct quoted as [price|].
      * rewrite lookup_assign in H1. case_bool_decide as Hsym.
        -- subst symbol. apply String.eqb_neq in Hk. rewrite Hk in H1.
           cbn in H1. injection H1 as <-.
           right. exists [], (vendor (delayed w) (quote_url k)),
             (replies vendor rest (answered vendor (delayed w) (quote_url k))).
           auto.
        -- cbn [andb] in H1. left. split; [exact H1|].
           intros reply [[= Heq _] | Hin]; [congruence | now apply Hdeg].
      * left. split; [exact H1|].
        intros reply [[= _ <-] | Hin]; [exact Hquoted | now apply Hdeg].
Qed.

(** The equity adapter always returns a mapping. In a run, a symbol is
    absent from it exactly when every reply to its requests in that run
    carries no price; a symbol that is present carries the price of the last
    reply to its requests that carried one, a number; ["__proto__"] is never
    a key; and the requests are logged one per symbol, each after a delay. *)
Lemma fetchStockPrices_spec (symbols : list string) (w : World) :
  exists results w',
    fetchStockPrices vendor symbols w = (Ok results, w')
    /\ log w' = log w ++ events symbols
    /\ (clock w + DELAY * N.of_nat (List.length symbols) <= clock w')%N
    /\ results !! "__proto__" = None
    /\ (forall k, k <> "__proto__" ->
          results !! k = None
          <-> forall reply, In (k, reply) (replies vendor symbols w) -> degraded reply)
    /\ (forall k d, results !! k = Some d ->
          Num.isNaN (usd d) = false
          /\ exists before reply after,
               replies vendor symbols w = before ++ (k, reply) :: after
               /\ priced reply (usd d)
               /\ forall reply', In (k, reply') after -> degraded reply').
Proof.
  assert (Hmain : exists results w',
    fetchStockPrices vendor symbols w = (Ok results, w')
    /\ log w' = log w ++ events symbols
    /\ (clock w + DELAY * N.of_nat (List.length symbols) <= clock w')%N
    /\ results !! "__proto__" = None
    /\ (forall k, k <> "__proto__" -> results !! k = None ->
          forall reply, In (k, reply) (replies vendor symbols w) -> degraded reply)
    /\ (forall k d, k <> "__proto__" -> results !! k = Some d ->
          exists before reply after,
            replies vendor symbols w = before ++ (k, reply) :: after
            /\ priced reply (usd d)
            /\ forall reply', In (k, reply') after -> degraded reply')).
  { unfold fetchStockPrices. destruct symbols as [|symbol rest].
    - exists ∅, w. cbn. rewrite app_nil_r.
      split; [reflexivity|]. split; [reflexivity|]. split; [lia|].
      split; [apply lookup_empty|].
      split; [intros k _ _ reply []|].
      intros k d _ Hk. rewrite lookup_empty in Hk. discriminate.
    - cbn [List.length Nat.eqb]. cbn [String.eqb orb].
      change (String.eqb ALPHA_VANTAGE_API_KEY "YOUR_ALPHAVANTAGE_API_KEY"
              || String.eqb ALPHA_VANTAGE_API_KEY "") with false. cbv iota.
      destruct (stock_fetchEach_spec (symbol :: rest) ∅ w)
        as (results & w' & Hrun & Hlog & Hclock & Hproto & Hnone & Hsome).
      exists results, w'.
      split; [exact Hrun|]. split; [exact Hlog|]. split; [exact Hclock|].
      split; [now rewrite Hproto, lookup_empty|].
      split; [intros k Hk Hk'; now apply (Hnone k Hk Hk')|].
      intros k d Hk Hk'.
      destruct (Hsome k d Hk Hk') as [[Hempty _] | Hdec]; [|exact Hdec].
      rewrite lookup_empty in Hempty. discriminate. }
  destruct Hmain as (results & w' & Hrun & Hlog & Hclock & Hproto & Hnone & Hsome).
  assert (Hkey : forall k d, results !! k = Some d -> k <> "__proto__")
    by (intros k d Hk ->; congruence).
  exists results, w'.
  split; [exact Hrun|]. split; [exact Hlog|]. split; [exact Hclock|].
  split; [exact Hproto|]. split.
  - intros k Hk. split; [now apply Hnone|].
    intros Hdeg. destruct (results !! k) as [d|] eqn:Hd; [|reflexivity].
    destruct (Hsome k d Hk Hd) as (before & reply & after & Heq & Hp & _).
    destruct (stock_priced_not_degraded _ _ Hp). apply Hdeg.
    rewrite Heq. apply List.in_elt.
  - intros k d Hd.
    destruct (Hsome k d (Hkey k d Hd) Hd) as (before & reply & after & Heq & Hp & Hafter).
    split; [|now exists before, reply, after].
    destruct Hp as (r & data & _ & _ & _ & _ & _ & _ & Hnan). exact Hnan.
Qed.


End StockAdapter.

(** ** The commodity adapter *)

(** An upper-cased symbol is never ["__proto__"], so under it an assignment
    is an insertion. *)
Lemma toUpperCase_not_proto (s : string) : GoldApi.toUpperCase s <> "__proto__".
Proof.
  destruct s as [|c1 [|c2 [|c3 s]]]; cbn; try discriminate.
  intros Heq. injection Heq as _ _ Hc3 _.
  destruct c3 as [[] [] [] [] [] [] [] []]; vm_compute in Hc3; discriminate Hc3.
Qed.

Lemma assign_upper (s : string) (d : PriceData) (results : AllPrices) :
  assign (GoldApi.toUpperCase s) d results = <[GoldApi.toUpperCase s := d]> results.
Proof.
  unfold assign.
  destruct (String.eqb_spec (GoldApi.toUpperCase s) "__proto__") as [Heq|]; [|reflexivity].
  now destruct (toUpperCase_not_proto s).
Qed.

Section CommodityAdapter.
Context (vendor : Vendor jsval).
Import GoldApi.

Lemma spot_price_some (data : jsval) (p : float) :
  spot_price data = Some p -> JS.get "price" data = Some (VNum p).
Proof.
  unfold spot_price. destruct (JS.truthy data); [|discriminate].
  destruct (JS.get "price" data) as [[]|]; try discriminate.
  now intros [= <-].
Qed.

Lemma fetchSpot_spec (upperSymbol : string) (w : World) :
  exists spot,
    fetchSpot vendor upperSymbol w
    = (Ok spot, answered vendor w (spot_url upperSymbol))
    /\ (forall p, spot = Some p -> priced (vendor w (spot_url upperSymbol)) p).
Proof.
  unfold fetchSpot, catch, mbind, M_bind, fetch.
  fold (answered vendor w (spot_url upperSymbol)). unfold priced.
  destruct (response (vendor w (spot_url upperSymbol))) as [r|] eqn:Hr.
  2:{ exists None. split; [reflexivity | discriminate]. }
  destruct (ok r) eqn:Hok; cbn [negb].
  2:{ exists None. split; [reflexivity | discriminate]. }
  unfold json_of. destruct (json r) as [data|] eqn:Hjson.
  2:{ exists None. split; [reflexivity | discriminate]. }
  cbn. destruct (isGoldApiError data) eqn:Herr.
  { exists None. split; [reflexivity | discriminate]. }
  exists (spot_price data). split; [reflexivity|].
  intros p Hp. exists r, data.
  repeat split; try assumption. now apply spot_price_some.
Qed.

Lemma fetchSpot_priced (upperSymbol : string) (w : World) (p : float) :
  priced (vendor w (spot_url upperSymbol)) p ->
  fetchSpot vendor upperSymbol w
  = (Ok (Some p), answered vendor w (spot_url upperSymbol)).
Proof.
  intros (r & data & Hr & Hok & Hjson & Herr & Hprice).
  unfold fetchSpot, catch, mbind, M_bind, fetch.
  fold (answered vendor w (spot_url upperSymbol)).
  rewrite Hr, Hok. cbn [negb]. unfold json_of. rewrite Hjson. cbn.
  rewrite Herr. unfold spot_price. rewrite Hprice.
  destruct data; cbn in Hprice |- *; try discriminate; reflexivity.
Qed.

Lemma gold_priced_not_degraded (reply : Reply jsval) (p : float) :
  priced reply p -> ~ degraded reply.
Proof.
  intros (r & data & Hr & Hok & Hjson & Herr & Hprice).
  unfold degraded. rewrite Hr, Hjson.
  intros [Hbad | [Hbad | Hbad]]; [congruence | congruence |].
  now apply (Hbad p).
Qed.

(** Every reply is one with a price or one without. *)
Lemma gold_degraded_or_priced (reply : Reply jsval) :
  degraded reply \/ exists p, priced reply p.
Proof.
  unfold degraded, priced.
  destruct (response reply) as [r|] eqn:Hr; [|now left].
  destruct (ok r) eqn:Hok; [|left; now left].
  destruct (json r) as [data|] eqn:Hjson; [|left; now right].
  destruct (isGoldApiError data) eqn:Herr; [left; right; now left|].
  destruct (JS.get "price" data) as [[| | |p| | |]|] eqn:Hprice;
    try (left; right; right; intros p'; discriminate).
  right. exists p, r, data. auto 10.
Qed.

Lemma fetchSpot_cases (upperSymbol : string) (w : World) :
  exists spot,
    fetchSpot vendor upperSymbol w
    = (Ok spot, answered vendor w (spot_url upperSymbol))
    /\ match spot with
       | Some p => priced (vendor w (spot_url upperSymbol)) p
       | None => degraded (vendor w (spot_url upperSymbol))
       end.
Proof.
  destruct (fetchSpot_spec upperSymbol w) as (spot & Hrun & Hpriced).
  exists spot. split; [exact Hrun|].
  destruct spot as [p|]; [now apply Hpriced|].
  destruct (gold_degraded_or_priced (vendor w (spot_url upperSymbol)))
    as [Hd | [p Hp]]; [exact Hd|].
  rewrite (fetchSpot_priced upperSymbol w p Hp) in Hrun. discriminate.
Qed.

Lemma gold_replies_in (symbolsToFetch : list string) :
  forall (w : World) (k : string) (reply : Reply jsval),
    In (k, reply) (replies vendor symbolsToFetch w) ->
    In k (List.map toUpperCase symbolsToFetch)
    /\ exists w1, reply = vendor w1 (spot_url k).
Proof.
  induction symbolsToFetch as [|symbol rest IH]; intros w k reply; [intros []|].
  cbn [replies]. cbv zeta. intros [[= <- <-] | Hin].
  - split; [now left | now exists w].
  - destruct (IH _ _ _ Hin) as [Hk Hw]. split; [now right | exact Hw].
Qed.


Lemma gold_fetchEach_spec (symbolsToFetch : list string) :
  forall (results : AllPrices) (w : World),
  exists results' w',
    fetchEach vendor symbolsToFetch results w = (Ok results', w')
    /\ log w' = log w ++ events symbolsToFetch
    /\ (forall k, results' !! k = None ->
          results !! k = None
          /\ forall reply,
               In (k, reply) (replies vendor symbolsToFetch w) -> degraded reply)
    /\ (forall k d, results' !! k = Some d ->
          (results !! k = Some d
           /\ forall reply,
                In (k, reply) (replies vendor symbolsToFetch w) -> degraded reply)
          \/ exists before reply after,
               replies vendor symbolsToFetch w = before ++ (k, reply) :: after
               /\ priced reply (usd d)
               /\ forall reply', In (k, reply') after -> degraded reply').
Proof.
  induction symbolsToFetch as [|symbol rest IH]; intros results w.
  - exists results, w. cbn. rewrite app_nil_r.
    split; [reflexivity|]. split; [reflexivity|].
    split; [intros k Hk; split; [exact Hk | intros reply []]|].
    intros k d Hk. left. split; [exact Hk | intros reply []].
  - destruct (fetchSpot_cases (toUpperCase symbol) w) as (spot & Hrun & Hspot).
    set (results1 := match spot with
                     | Some price => <[toUpperCase symbol := mkPrice price]> results
                     | None => results
                     end).
    destruct (IH results1 (answered vendor w (spot_url (toUpperCase symbol))))
      as (results' & w' & Hrest & Hlog & Hnone & Hsome).
    exists results', w'.
    split. { cbn [fetchEach]. unfold mbind, M_bind at 1. rewrite Hrun. exact Hrest. }
    split. { rewrite Hlog. cbn. rewrite <- !app_assoc. reflexivity. }
    cbn [replies]. cbv zeta.
    split.
    + intros k Hnone'. destruct (Hnone k Hnone') as [H1 Hdeg].
      subst results1. destruct spot as [price|].
      * destruct (decide (toUpperCase symbol = k)) as [Hsym|Hsym].
        -- rewrite Hsym, lookup_insert_eq in H1. discriminate.
        -- rewrite lookup_insert_ne in H1 by exact Hsym. split; [exact H1|].
           intros reply [[= Heq _] | Hin]; [congruence | now apply Hdeg].
      * split; [exact H1|].
        intros reply [[= _ <-] | Hin]; [exact Hspot | now apply Hdeg].
    + intros k d Hsome'.
      destruct (Hsome k d Hsome')
        as [[H1 Hdeg] | (before & reply & after & Heq & Hp & Hafter)].
      2:{ right.
          exists ((toUpperCase symbol, vendor w (spot_url (toUpperCase symbol)))
                  :: before), reply, after. rewrite Heq. auto. }
      subst results1. destruct spot as [price|].
      * destruct (decide (toUpperCase symbol = k)) as [Hsym|Hsym].
        -- subst k. rewrite lookup_insert_eq in H1. injection H1 as <-.
           right.
           exists [], (vendor w (spot_url (toUpperCase symbol))),
             (replies vendor rest
                (answered vendor w (spot_url (toUpperCase symbol)))).
           auto.
        -- rewrite lookup_insert_ne in H1 by exact Hsym. left. split; [exact H1|].
           intros reply [[= Heq _] | Hin]; [congruence | now apply Hdeg].
      * left. split; [exact H1|].
        intros reply [[= _ <-] | Hin]; [exact Hspot | now apply Hdeg].
Qed.

Lemma supported_spec (x : string) :
  supported x = true <-> x = "XAU" \/ x = "XAG".
Proof.
  unfold supported, supportedSymbols. cbn [List.existsb].
  rewrite !orb_true_iff, !String.eqb_eq. intuition discriminate.
Qed.

(** The commodity adapter always returns a mapping. Its keys are among XAU
    and XAG; in a run, a key is absent exactly when every reply to its
    requests in that run carries no price, and a key that is present carries
    the [price] of the last reply to its requests that carried one; and the
    log gains one request per supported symbol and no delay. *)
Lemma fetchCommodityPrices_spec (symbols : list string) (w : World) :
  let symbolsToFetch := List.filter (fun s => supported (toUpperCase s)) symbols in
  exists results w',
    fetchCommodityPrices vendor symbols w = (Ok results, w')
    /\ log w' = log w ++ events symbolsToFetch
    /\ (forall k d, results !! k = Some d ->
          (k = "XAU" \/ k = "XAG")
          /\ In k (List.map toUpperCase symbols)
          /\ exists before reply after,
               replies vendor symbolsToFetch w = before ++ (k, reply) :: after
               /\ priced reply (usd d)
               /\ forall reply', In (k, reply') after -> degraded reply')
    /\ (forall k,
          results !! k = None
          <-> forall reply,
                In (k, reply) (replies vendor symbolsToFetch w) -> degraded reply).
Proof.
  intros symbolsToFetch.
  assert (Hmain : exists results w',
    fetchCommodityPrices vendor symbols w = (Ok results, w')
    /\ log w' = log w ++ events symbolsToFetch
    /\ (forall k, results !! k = None ->
          forall reply,
            In (k, reply) (replies vendor symbolsToFetch w) -> degraded reply)
    /\ (forall k d, results !! k = Some d ->
          exists before reply after,
            replies vendor symbolsToFetch w = before ++ (k, reply) :: after
            /\ priced reply (usd d)
            /\ forall reply', In (k, reply') after -> degraded reply')).
  { unfold fetchCommodityPrices. fold symbolsToFetch.
    destruct symbolsToFetch as [|symbol rest] eqn:Hfetch.
    - exists ∅, w. cbn. rewrite app_nil_r.
      split; [reflexivity|]. split; [reflexivity|].
      split; [intros k _ reply []|].
      intros k d Hk. rewrite lookup_empty in Hk. discriminate.
    - cbn [List.length Nat.eqb].
      change (String.eqb GOLDAPI_API_KEY ""
              || negb (String.prefix "goldapi-" GOLDAPI_API_KEY)) with false.
      cbv iota.
      destruct (gold_fetchEach_spec (symbol :: rest) ∅ w)
        as (results & w' & Hrun & Hlog & Hnone & Hsome).
      exists results, w'.
      split; [exact Hrun|]. split; [exact Hlog|].
      split; [intros k Hk; now apply (Hnone k Hk)|].
      intros k d Hk.
      destruct (Hsome k d Hk) as [[Hempty _] | Hdec]; [|exact Hdec].
      rewrite lookup_empty in Hempty. discriminate. }
  destruct Hmain as (results & w' & Hrun & Hlog & Hnone & Hsome).
  assert (Hkeys : forall k, In k (List.map toUpperCase symbolsToFetch) ->
            (k = "XAU" \/ k = "XAG") /\ In k (List.map toUpperCase symbols)).
  { intros k Hin. apply List.in_map_iff in Hin as (s & <- & Hs).
    apply List.filter_In in Hs as (Hs & Hsup).
    split; [now apply supported_spec | now apply List.in_map]. }
  exists results, w'.
  split; [exact Hrun|]. split; [exact Hlog|]. split.
  - intros k d Hd.
    destruct (Hsome k d Hd) as (before & reply & after & Heq & Hp & Hafter).
    assert (Hin : In k (List.map toUpperCase symbolsToFetch)).
    { apply (gold_replies_in symbolsToFetch w k reply).
      rewrite Heq. apply List.in_elt. }
    destruct (Hkeys k Hin) as [Hk1 Hk2].
    split; [exact Hk1|]. split; [exact Hk2|]. now exists before, reply, after.
  - intros k. split; [now apply Hnone|].
    intros Hdeg. destruct (results !! k) as [d|] eqn:Hd; [|reflexivity].
    destruct (Hsome k d Hd) as (before & reply & after & Heq & Hp & _).
    destruct (gold_priced_not_degraded _ _ Hp). apply Hdeg.
    rewrite Heq. apply List.in_elt.
Qed.

Lemma gold_fetchEach_complete (k : string) (p : float) (symbolsToFetch : list string) :
  (forall w1, priced (vendor w1 (spot_url k)) p) ->
  forall (results : AllPrices) (w : World),
    results !! k = Some (mkPrice p) \/ In k (List.map toUpperCase symbolsToFetch) ->
    exists results' w',
      fetchEach vendor symbolsToFetch results w = (Ok results', w')
      /\ results' !! k = Some (mkPrice p).
Proof.
  intros Hpriced. induction symbolsToFetch as [|symbol rest IH]; intros results w Hk.
  - destruct Hk as [Hk | []]. exists results, w. split; [reflexivity | exact Hk].
  - cbn [fetchEach]. cbv zeta. unfold mbind at 1, M_bind at 1.
    destruct (decide (toUpperCase symbol = k)) as [Heq|Hne].
    + rewrite Heq. rewrite (fetchSpot_priced k w p (Hpriced _)).
      apply IH. left. apply lookup_insert_eq.
    + destruct (fetchSpot_spec (toUpperCase symbol) w) as (spot & -> & _).
      apply IH. destruct Hk as [Hk | [Hk | Hk]]; [|congruence | now right].
      left. destruct spot; [now rewrite lookup_insert_ne | exact Hk].
Qed.

End CommodityAdapter.

(** ** The crypto adapter *)

Lemma fetchCryptoPrices_spec (vendor : Vendor jsval) (ids : list string) (w : World) :
  ids <> [] ->
  CoinGecko.fetchCryptoPrices vendor ids w
  = (match response (vendor w (CoinGecko.price_url ids)) with
     | None => Thrown FetchFailed
     | Some r =>
         if ok r then
           match json r with
           | Some data => Ok data
           | None => Thrown SyntaxError
           end
         else Thrown HttpError
     end,
     answered vendor w (CoinGecko.price_url ids)).
Proof.
  intros Hids. unfold CoinGecko.fetchCryptoPrices.
  destruct ids as [|i rest]; [congruence|]. cbn [List.length Nat.eqb].
  unfold catch, mbind, M_bind, fetch, answered, json_of, throw.
  destruct (response (vendor w _)) as [r|]; [|reflexivity].
  destruct (ok r); cbn [negb]; [|reflexivity].
  destruct (json r); reflexivity.
Qed.

(** ** Per-id degradation *)




(** ** Request discipline *)

Lemma delays_app (l1 l2 : list Event) : delays (l1 ++ l2) = delays l1 ++ delays l2.
Proof. unfold delays. apply List.flat_map_app. Qed.

Lemma delays_gold_events (symbols : list string) : delays (GoldApi.events symbols) = [].
Proof. induction symbols; cbn; auto. Qed.

Lemma requests_app (l1 l2 : list Event) :
  requests (l1 ++ l2) = requests l1 ++ requests l2.
Proof. unfold requests. apply List.flat_map_app. Qed.

Lemma requests_stock_events (symbols : list string) :
  requests (AlphaVantage.events symbols) = List.map AlphaVantage.quote_url symbols.
Proof. induction symbols as [|s l IH]; cbn; [reflexivity|]. now f_equal. Qed.

(** C9, as stated, fails for the commodity adapter: of three ids it requests
    the two supported ones, with no delay at all, and with a vendor that
    answers at once no time passes between the requests. *)
Lemma C9_counterexample :
  let run :=
    GoldApi.fetchCommodityPrices (Ex.always (Ex.json200 Ex.goldSpot))
      ["XAU"; "XAG"; "XPT"] Ex.start in
  requests (log (snd run)) = [GoldApi.spot_url "XAU"; GoldApi.spot_url "XAG"]
  /\ delays (log (snd run)) = []
  /\ clock (snd run) = clock Ex.start.
Proof. repeat split. Qed.

(** C9, amended. The equity adapter issues one request per symbol, in order,
    each after a delay of 13000 ms, so a run over [n] symbols lasts at least
    [n] delays, hence at least [n - 1]. The commodity adapter issues one
    request per supported symbol (XAU, XAG in any letter case), in order, and
    never delays. *)
Theorem C9_request_discipline `{Platform}
    (vendor : Vendor jsval) (w : World) (symbols : list string) :
  (exists results w',
      AlphaVantage.fetchStockPrices vendor symbols w = (Ok results, w')
      /\ log w' = log w ++ AlphaVantage.events symbols
      /\ requests (log w')
         = requests (log w) ++ List.map AlphaVantage.quote_url symbols
      /\ (clock w + 13000 * N.of_nat (List.length symbols) <= clock w')%N
      /\ (clock w + 13000 * (N.of_nat (List.length symbols) - 1) <= clock w')%N)
  /\ (exists results w',
      GoldApi.fetchCommodityPrices vendor symbols w = (Ok results, w')
      /\ log w' = log w
                  ++ GoldApi.events
                       (List.filter (fun s => GoldApi.supported (GoldApi.toUpperCase s))
                          symbols)
      /\ delays (log w') = delays (log w)).
Proof.
  split.
  - destruct (fetchStockPrices_spec vendor symbols w)
      as (results & w' & Hrun & Hlog & Hclock & _).
    exists results, w'. unfold AlphaVantage.DELAY in Hclock.
    repeat split; try assumption; [|lia].
    now rewrite Hlog, requests_app, requests_stock_events.
  - destruct (fetchCommodityPrices_spec vendor symbols w)
      as (results & w' & Hrun & Hlog & _).
    exists results, w'. repeat split; try assumption.
    now rewrite Hlog, delays_app, delays_gold_events, app_nil_r.
Qed.

Lemma C9_witness :
  exists results w',
    AlphaVantage.fetchStockPrices (Ex.always (Ex.json200 Ex.ibmQuote))
      ["IBM"; "AAPL"; "MSFT"] Ex.start = (Ok results, w')
    /\ delays (log w') = [13000; 13000; 13000]%N
    /\ (clock Ex.start + 2 * 13000 <= clock w')%N.
Proof.
  destruct (C9_request_discipline (Ex.always (Ex.json200 Ex.ibmQuote)) Ex.start
              ["IBM"; "AAPL"; "MSFT"])
    as ((results & w' & Hrun & Hlog & _ & _ & Hclock) & _).
  exists results, w'. split; [exact Hrun|]. split.
  - rewrite Hlog. reflexivity.
  - cbn in Hclock |- *. lia.
Defined.

(** ** The loader *)

(** What the client finds under a key of the merged prices. *)
Lemma lookup_spread_object (props : list (string * jsval)) (k : string) :
  spread (VObj props) !! k = JS.assoc k props.
Proof.
  cbn [spread]. induction props as [|[k' v] rest IH]; [reflexivity|].
  cbn [List.rev JS.assoc]. rewrite list_to_map_app, lookup_union, IH.
  change (list_to_map [(k', v)]) with (<[k' := v]> (∅ : gmap string jsval)).
  destruct (JS.assoc k rest) as [v'|].
  - now destruct (<[k' := v]> (∅ : gmap string jsval) !! k).
  - destruct (String.eqb_spec k' k) as [->|Hne].
    + now rewrite lookup_insert_eq.
    + now rewrite lookup_insert_ne, lookup_empty.
Qed.

Lemma mergePrices_lookup
    (cryptoPricesResult : jsval) (stockPricesResult commodityPricesResult : AllPrices)
    (k : string) :
  mergePrices cryptoPricesResult stockPricesResult commodityPricesResult !! k
  = match commodityPricesResult !! k, stockPricesResult !! k with
    | Some d, _ => Some (untyped d)
    | None, Some d => Some (untyped d)
    | None, None => spread (JS.or cryptoPricesResult (VObj [])) !! k
    end.
Proof.
  unfold mergePrices. rewrite !lookup_union, !lookup_fmap.
  destruct (commodityPricesResult !! k), (stockPricesResult !! k); cbn;
    try reflexivity;
    now destruct (spread (JS.or cryptoPricesResult (VObj [])) !! k).
Qed.

(** A price entry built by an adapter, as the client reads it. *)
Lemma property_untyped (d : PriceData) :
  JSON.property (untyped d) = Some (VObj [("usd", stringify_number (usd d))]).
Proof.
  unfold JSON.property, untyped, stringify_number. cbn.
  destruct (Num.isFinite (usd d)); reflexivity.
Qed.

Lemma lookup_sent (data : LoaderData jsval) (k : string) :
  currentPrices (sent data) !! k = currentPrices data !! k ≫= JSON.property.
Proof. unfold sent. cbn [currentPrices]. apply lookup_omap. Qed.

Section Chart.
Context `{Platform} `{Coercions}.

(** Entries of the declared shape, [[timestamp, price]] with a numeric
    timestamp, can be charted. *)
Lemma chartOf_declared (series : jsval) (items : list jsval) :
  JS.get "prices" series = Some (VArr items) ->
  Forall (fun entry => exists t rest, entry = VArr (VNum t :: rest)) items ->
  is_Some (chartOf series).
Proof.
  intros Hprices Hitems. unfold chartOf. rewrite Hprices. cbn [mbind option_bind].
  apply mapM_is_Some. eapply Forall_impl; [exact Hitems|].
  intros entry (t & rest & ->). eexists. reflexivity.
Qed.

(** A body whose [prices] is not an array, or is an array with a [null]
    entry, cannot be charted. *)
Lemma chartOf_unreadable (series : jsval) :
  (forall items, JS.get "prices" series <> Some (VArr items))
  \/ (exists items, JS.get "prices" series = Some (VArr items) /\ In VNull items) ->
  chartOf series = None.
Proof.
  unfold chartOf. intros [Hnone | (items & -> & Hnull)].
  - destruct (JS.get "prices" series) as [[]|]; try reflexivity.
    now destruct (Hnone items).
  - cbn [mbind option_bind].
    destruct (mapM chartPoint items) as [chart|] eqn:Hchart; [|reflexivity].
    assert (Hall : is_Some (mapM chartPoint items)) by (now exists chart).
    apply mapM_is_Some in Hall. rewrite List.Forall_forall in Hall.
    destruct (Hall VNull Hnull) as [x Hx]. discriminate Hx.
Qed.

End Chart.

(** C1, as stated, fails: when the crypto batch request is answered 500 the
    loader returns the error state with an empty price map, although the
    equity adapter had a price for IBM; so it does when only the history
    request is answered 500; and so it does when every request is answered
    200 and the history body is an empty object. *)
Lemma C1_counterexample :
  loader Ex.cryptoDown Ex.start ["bitcoin"] ["IBM"] ["XAU"]
  = mkLoaderResponse 500 (mkLoaderData ∅ [] "Error")
  /\ (exists stockPrices,
        settle (AlphaVantage.fetchStockPrices (alphaVantage Ex.cryptoDown) ["IBM"])
          Ex.start = Ok stockPrices
        /\ stockPrices !! "IBM" = Some (mkPrice 190))
  /\ loader Ex.historyDown Ex.start ["bitcoin"] ["IBM"] ["XAU"]
     = mkLoaderResponse 500 (mkLoaderData ∅ [] "Error")
  /\ loader Ex2.historyEmpty Ex.start ["bitcoin"] ["IBM"] ["XAU"]
     = mkLoaderResponse 500 (mkLoaderData ∅ [] "Error").
Proof.
  split; [vm_compute; reflexivity|].
  split; [eexists; split; [reflexivity | vm_compute; reflexivity]|].
  split; vm_compute; reflexivity.
Qed.

(** C1, amended. The equity and the commodity adapter never reject, so
    neither can fail a refresh. Whatever their vendors reply, when the crypto
    batch succeeds and the history request, if one is made, succeeds with a
    body that is falsy or whose [prices] is an array of entries that each
    start with a numeric timestamp, the loader answers 200, and the client
    finds under a key the commodity adapter's price, else the equity
    adapter's, else the property of the crypto body, each as JSON carries it.
    A rejection of the crypto batch request or of the history request, and a
    truthy history body whose [prices] is not an array or holds a [null]
    entry, fail the whole refresh: the loader answers with the error state,
    status 500, an empty price map, an empty chart series and the chart name
    ['Error']. *)
Theorem C1_failure_containment `{Platform} `{Coercions}
    (vendors : Vendors) (w : World)
    (cryptoIds stockSymbols commoditySymbols : list string) :
  let answer := loader vendors w cryptoIds stockSymbols commoditySymbols in
  let crypto :=
    settle (CoinGecko.fetchCryptoPrices (coinGeckoPrices vendors) cryptoIds) w in
  let history historyAssetId :=
    settle (CoinGecko.fetchCryptoHistory (coinGeckoHistory vendors) historyAssetId 90) w in
  let errorState :=
    status answer = 500%N
    /\ currentPrices (body answer) = ∅
    /\ chartData (body answer) = []
    /\ chartAssetName (body answer) = "Error" in
  (exists stockPrices commodityPrices,
      settle (AlphaVantage.fetchStockPrices (alphaVantage vendors) stockSymbols) w
      = Ok stockPrices
      /\ settle (GoldApi.fetchCommodityPrices (goldApi vendors) commoditySymbols) w
         = Ok commodityPrices
      /\ (forall cryptoPrices,
            crypto = Ok cryptoPrices ->
            (forall i, List.head cryptoIds = Some i -> i <> "" ->
               exists series,
                 history i = Ok series
                 /\ (JS.truthy series = true ->
                     exists items,
                       JS.get "prices" series = Some (VArr items)
                       /\ Forall (fun entry =>
                                    exists t rest, entry = VArr (VNum t :: rest))
                            items)) ->
            status answer = 200%N
            /\ (forall k d,
                  commodityPrices !! k = Some d ->
                  currentPrices (body answer) !! k
                  = Some (VObj [("usd", stringify_number (usd d))]))
            /\ (forall k d,
                  commodityPrices !! k = None -> stockPrices !! k = Some d ->
                  currentPrices (body answer) !! k
                  = Some (VObj [("usd", stringify_number (usd d))]))
            /\ (forall k props,
                  commodityPrices !! k = None -> stockPrices !! k = None ->
                  cryptoPrices = VObj props ->
                  currentPrices (body answer) !! k
                  = JS.assoc k props ≫= JSON.property)))
  /\ (forall e, crypto = Thrown e -> errorState)
  /\ (forall i e, List.head cryptoIds = Some i -> i <> "" ->
                  history i = Thrown e -> errorState)
  /\ (forall i series, List.head cryptoIds = Some i -> i <> "" ->
                       history i = Ok series ->
                       JS.truthy series = true ->
                       (forall items, JS.get "prices" series <> Some (VArr items))
                       \/ (exists items,
                             JS.get "prices" series = Some (VArr items)
                             /\ In VNull items) ->
                       errorState).
Proof.
  cbn zeta.
  destruct (fetchStockPrices_spec (alphaVantage vendors) stockSymbols w)
    as (stockPrices & ws & Hstock & _).
  destruct (fetchCommodityPrices_spec (goldApi vendors) commoditySymbols w)
    as (commodityPrices & wc & Hcommodity & _).
  assert (Hs : settle (AlphaVantage.fetchStockPrices (alphaVantage vendors) stockSymbols) w
               = Ok stockPrices) by (unfold settle; now rewrite Hstock).
  assert (Hc : settle (GoldApi.fetchCommodityPrices (goldApi vendors) commoditySymbols) w
               = Ok commodityPrices) by (unfold settle; now rewrite Hcommodity).
  unfold loader. cbv zeta. rewrite Hs, Hc.
  split; [|split; [|split]].
  - exists stockPrices, commodityPrices. split; [reflexivity|]. split; [reflexivity|].
    intros cryptoPrices Hcrypto Hhistory. rewrite Hcrypto.
    set (merged := mergePrices cryptoPrices stockPrices commodityPrices).
    assert (Hmerged : forall chart chartName,
      let answer := mkLoaderResponse 200 (sent (mkLoaderData merged chart chartName)) in
      status answer = 200%N
      /\ (forall k d,
            commodityPrices !! k = Some d ->
            currentPrices (body answer) !! k
            = Some (VObj [("usd", stringify_number (usd d))]))
      /\ (forall k d,
            commodityPrices !! k = None -> stockPrices !! k = Some d ->
            currentPrices (body answer) !! k
            = Some (VObj [("usd", stringify_number (usd d))]))
      /\ (forall k props,
            commodityPrices !! k = None -> stockPrices !! k = None ->
            cryptoPrices = VObj props ->
            currentPrices (body answer) !! k
            = JS.assoc k props ≫= JSON.property)).
    { intros chart chartName. cbv zeta. cbn [status body].
      split; [reflexivity|].
      split; [|split].
      - intros k d Hk. rewrite lookup_sent. cbn [currentPrices]. unfold merged.
        rewrite mergePrices_lookup, Hk. apply property_untyped.
      - intros k d Hk Hk'. rewrite lookup_sent. cbn [currentPrices]. unfold merged.
        rewrite mergePrices_lookup, Hk, Hk'. apply property_untyped.
      - intros k props Hk Hk' ->. rewrite lookup_sent. cbn [currentPrices].
        unfold merged. rewrite mergePrices_lookup, Hk, Hk'.
        change (JS.or (VObj props) (VObj [])) with (VObj props).
        now rewrite lookup_spread_object. }
    destruct (List.head cryptoIds) as [i|]; [|apply Hmerged].
    destruct (String.eqb_spec i "") as [->|Hi]; cbn [negb]; [apply Hmerged|].
    destruct (Hhistory i eq_refl Hi) as (series & Hseries & Hchart).
    cbv iota. change (default "" (Some i)) with i.
    rewrite Hseries. destruct (JS.truthy series); [|apply Hmerged].
    destruct (Hchart eq_refl) as (items & Hprices & Hitems).
    destruct (chartOf_declared series items Hprices Hitems) as [chart ->].
    apply Hmerged.
  - intros e Hcrypto. now rewrite Hcrypto.
  - intros i e Hhead Hi Hthrown. rewrite Hhead.
    destruct (String.eqb_spec i "") as [->|_]; [congruence|]. cbn [negb].
    cbv iota. change (default "" (Some i)) with i.
    rewrite Hthrown.
    now destruct (settle (CoinGecko.fetchCryptoPrices _ _) w).
  - intros i series Hhead Hi Hseries Htruthy Hchart. rewrite Hhead.
    destruct (String.eqb_spec i "") as [->|_]; [congruence|]. cbn [negb].
    cbv iota. change (default "" (Some i)) with i.
    rewrite Hseries, Htruthy, (chartOf_unreadable series Hchart).
    now destruct (settle (CoinGecko.fetchCryptoPrices _ _) w).
Qed.

Lemma C1_witness :
  (let answer := loader Ex.market Ex.start ["bitcoin"] ["ZZZZ"] ["XAU"] in
   status answer = 200%N
   /\ currentPrices (body answer) !! "XAU" = Some (VObj [("usd", VNum 2000)])
   /\ currentPrices (body answer) !! "bitcoin" = Some (VObj [("usd", VNum 50000)])
   /\ currentPrices (body answer) !! "ZZZZ" = None)
  /\ (let answer := loader Ex.cryptoDown Ex.start ["bitcoin"] ["IBM"] ["XAU"] in
      status answer = 500%N
      /\ currentPrices (body answer) = ∅
      /\ chartData (body answer) = []
      /\ chartAssetName (body answer) = "Error")
  /\ (let answer := loader Ex2.historyEmpty Ex.start ["bitcoin"] ["IBM"] ["XAU"] in
      status answer = 500%N
      /\ currentPrices (body answer) = ∅
      /\ chartData (body answer) = []
      /\ chartAssetName (body answer) = "Error").
Proof.
  destruct (C1_failure_containment Ex.market Ex.start ["bitcoin"] ["ZZZZ"] ["XAU"])
    as ((stockPrices & commodityPrices & Hs & Hc & Hok) & _).
  destruct (C1_failure_containment Ex.cryptoDown Ex.start ["bitcoin"] ["IBM"] ["XAU"])
    as (_ & Hcrypto & _).
  destruct (C1_failure_containment Ex2.historyEmpty Ex.start ["bitcoin"] ["IBM"] ["XAU"])
    as (_ & _ & _ & Hchart).
  split; [|split].
  - cbv zeta. injection Hs as <-. injection Hc as <-.
    destruct (Hok Ex.coins) as (Hstatus & Hcommodity & _ & Hcoins).
    { reflexivity. }
    { intros i [= <-] _. exists Ex.history. split; [reflexivity|].
      intros _. eexists. split; [reflexivity|].
      apply List.Forall_cons; [|apply List.Forall_nil]. eexists _, _. reflexivity. }
    split; [exact Hstatus|].
    split; [apply (Hcommodity "XAU" (mkPrice 2000)); vm_compute; reflexivity|].
    split.
    + apply (Hcoins "bitcoin" _ eq_refl eq_refl eq_refl).
    + apply (Hcoins "ZZZZ" _ eq_refl eq_refl eq_refl).
  - apply (Hcrypto HttpError). reflexivity.
  - apply (Hchart "bitcoin" (VObj [])); try reflexivity; try discriminate.
    left. intros items. discriminate.
Defined.

(** * Further properties of the code *)

(** ** Valuation *)

(** X1. Valuation never changes, drops or reorders the holdings: the
    holdings under the calculated list are the portfolio itself. *)
Theorem X1_valuation_keeps_holdings
    (portfolio : list Asset) (currentPrices : AllPrices) :
  List.map asset_of (portfolioWithCalculatedValues portfolio currentPrices)
  = portfolio.
Proof.
  unfold portfolioWithCalculatedValues. rewrite List.map_map.
  induction portfolio as [|a l IH]; cbn; [reflexivity|].
  now rewrite calculate_asset_of, IH.
Qed.

(** X2. No row has a unit price without a total value: whenever the
    valuation defines [price] it defines [calculatedValue]. *)
Theorem X2_price_implies_value
    (portfolio : list Asset) (currentPrices : AllPrices) :
  Forall (fun c => is_Some (price c) -> is_Some (calculatedValue c))
    (portfolioWithCalculatedValues portfolio currentPrices).
Proof.
  unfold portfolioWithCalculatedValues. apply List.Forall_forall.
  intros c Hc. apply List.in_map_iff in Hc as (a & <- & _).
  unfold calculate, read.
  destruct (currentPrices !! id a), (inherited (id a)), (type a),
    (currentValue a); cbn; intros Hp; try (eexists; reflexivity);
    try (destruct Hp; discriminate).
Qed.

Lemma mul_nan_r (q : float) :
  PrimFloat.is_nan (PrimFloat.mul q PrimFloat.nan) = true.
Proof.
  unfold PrimFloat.is_nan. rewrite FloatAxioms.eqb_spec, FloatAxioms.mul_spec.
  change (Prim2SF PrimFloat.nan) with S754_nan.
  destruct (Prim2SF q) as [s|s| |s m e]; reflexivity.
Qed.

(** X3. Which holdings are left without a value. A crypto, stock or
    commodity holding whose id has no price entry and does not name a member
    every object inherits has neither price nor value, and so has a
    real-estate holding without a manual value. A crypto, stock or commodity
    holding with a price entry, a real-estate holding with a manual value and
    every holding of kind [other] has a value. Under an inherited name
    without an entry ([constructor], [__proto__], ...) a crypto, stock or
    commodity holding has no price and the value [quantity * undefined],
    which is [NaN]. *)
Theorem X3_unvalued (currentPrices : AllPrices) (asset : Asset) :
  let row := calculate currentPrices asset in
  (fetchable (type asset) = true -> currentPrices !! id asset = None ->
   inherited (id asset) = false ->
   price row = None /\ calculatedValue row = None)
  /\ (fetchable (type asset) = true -> currentPrices !! id asset = None ->
      inherited (id asset) = true ->
      price row = None
      /\ calculatedValue row = Some (Num.mul (quantity asset) PrimFloat.nan)
      /\ Num.isNaN (Num.mul (quantity asset) PrimFloat.nan) = true)
  /\ (type asset = real_estate -> currentValue asset = None ->
      price row = None /\ calculatedValue row = None)
  /\ (forall d, fetchable (type asset) = true ->
        currentPrices !! id asset = Some d ->
        calculatedValue row = Some (Num.mul (quantity asset) (usd d)))
  /\ (forall manual, type asset = real_estate ->
        currentValue asset = Some manual ->
        calculatedValue row = Some manual)
  /\ (type asset = other -> is_Some (calculatedValue row)).
Proof.
  cbn zeta. unfold calculate, read.
  split; [|split; [|split; [|split; [|split]]]].
  - intros Hkind -> ->.
    destruct (type asset); try discriminate Hkind; split; reflexivity.
  - intros Hkind -> ->.
    assert (Hnan : Num.isNaN (Num.mul (quantity asset) PrimFloat.nan) = true)
      by apply mul_nan_r.
    destruct (type asset); try discriminate Hkind; auto.
  - intros -> ->.
    destruct (currentPrices !! id asset), (inherited (id asset)); split; reflexivity.
  - intros d Hkind ->.
    destruct (type asset); try discriminate Hkind; reflexivity.
  - intros manual -> ->.
    destruct (currentPrices !! id asset), (inherited (id asset)); reflexivity.
  - intros ->.
    destruct (currentPrices !! id asset), (inherited (id asset)),
      (currentValue asset); eexists; reflexivity.
Qed.

Lemma X3_witness :
  let row := calculate Ex.prices (mkAsset "constructor" crypto "CTR" "Coin" 2 None None) in
  price row = None /\ Num.isNaN (default 0%float (calculatedValue row)) = true.
Proof.
  destruct (X3_unvalued Ex.prices
              (mkAsset "constructor" crypto "CTR" "Coin" 2 None None))
    as (_ & Hmember & _).
  destruct (Hmember eq_refl eq_refl eq_refl) as (Hprice & Hvalue & Hnan).
  cbv zeta. rewrite Hprice, Hvalue. split; [reflexivity | exact Hnan].
Defined.

(** ** Persistence *)

Lemma strip_calculate (prices : AllPrices) (a : Asset) :
  strip (calculate prices a) = strip (plain a).
Proof. unfold strip. now rewrite calculate_asset_of. Qed.

(** X4. Derived fields are never persisted: saving the calculated portfolio
    stores the same as saving the bare holdings, whatever the prices. *)
Theorem X4_derived_fields_not_saved
    (portfolio : list Asset) (currentPrices : AllPrices) :
  saveClientPortfolio (portfolioWithCalculatedValues portfolio currentPrices)
  = saveClientPortfolio (List.map plain portfolio).
Proof.
  unfold saveClientPortfolio, portfolioWithCalculatedValues. f_equal.
  rewrite !List.map_map. apply List.map_ext. intros a. apply strip_calculate.
Qed.

(** X5. Holdings whose quantity is [0] or a finite non-zero number, and
    whose optional values are absent or finite and non-zero, are read back
    from storage exactly as they were saved. *)
Theorem X5_roundtrip_regular `{Platform} (portfolio : list Asset) :
  Forall regular portfolio ->
  getClientPortfolio (saveClientPortfolio (List.map plain portfolio)) = portfolio.
Proof. apply regular_roundtrip. Qed.

Lemma X5_witness :
  getClientPortfolio
    (saveClientPortfolio (List.map plain [Ex.bitcoin; Ex.plot; Ex.flat]))
  = [Ex.bitcoin; Ex.plot; Ex.flat].
Proof.
  apply X5_roundtrip_regular. regular_holdings.
Defined.

Lemma revived_quantity `{Platform} (q : float) :
  let loaded := JS.parseFloat (JS.or (stringify_number q) (VStr "0")) in
  loaded = 0%float \/ storable loaded.
Proof.
  cbn zeta.
  destruct (Num.isFinite q) eqn:Hfinite, (Num.is0 q) eqn:Hzero.
  2:{ right. destruct (storable_roundtrip q (conj Hfinite Hzero)) as [Ht Hp].
      unfold JS.or. rewrite Ht, Hp. split; assumption. }
  all: left; unfold stringify_number; rewrite Hfinite, ?Hzero;
    apply parseFloatString_0.
Qed.

Lemma revived_optional `{Platform} (o : option float) (v : float) :
  (if JS.truthy (stringify_optional o)
   then Some (JS.parseFloat (stringify_optional o)) else None) = Some v ->
  storable v.
Proof.
  destruct o as [f|]; cbn [stringify_optional]; [|discriminate].
  destruct (Num.isFinite f) eqn:Hfinite, (Num.is0 f) eqn:Hzero.
  2:{ destruct (storable_roundtrip f (conj Hfinite Hzero)) as [Ht Hp].
      rewrite Ht, Hp. intros [= <-]. split; assumption. }
  all: unfold stringify_number; rewrite Hfinite, ?Hzero; discriminate.
Qed.

Lemma revive_regular `{Platform} (a : Asset) : regular (revive (strip (plain a))).
Proof.
  unfold regular, revive, strip, plain. cbn.
  split; [apply revived_quantity|].
  split; intros v Hv; eapply revived_optional; exact Hv.
Qed.

Lemma reloaded_regular `{Platform} (portfolio : list Asset) :
  Forall regular
    (getClientPortfolio (saveClientPortfolio (List.map plain portfolio))).
Proof.
  cbn. rewrite List.map_map. apply List.Forall_forall. intros a Ha.
  apply List.in_map_iff in Ha as (b & <- & _). apply revive_regular.
Qed.

(** X6. Saving and loading normalises once: what is read back has only
    quantities that are [0] or finite and non-zero and optional values that
    are absent or finite and non-zero, keeps the number and order of the
    holdings, and a second save and load returns it unchanged. *)
Theorem X6_roundtrip_normalises `{Platform} (portfolio : list Asset) :
  let reload p := getClientPortfolio (saveClientPortfolio (List.map plain p)) in
  Forall regular (reload portfolio)
  /\ List.map id (reload portfolio) = List.map id portfolio
  /\ reload (reload portfolio) = reload portfolio.
Proof.
  cbn zeta. split; [apply reloaded_regular|]. split.
  - cbn. rewrite !List.map_map. apply List.map_ext. reflexivity.
  - apply regular_roundtrip, reloaded_regular.
Qed.

(** ** Add and remove *)

Lemma existsb_id_false (k : string) (l : list Asset) :
  List.existsb (fun asset => String.eqb (id asset) k) l = false
  <-> ~ In k (List.map id l).
Proof.
  induction l as [|a l IH]; cbn; [tauto|].
  rewrite orb_false_iff, IH, String.eqb_neq. tauto.
Qed.

Lemma NoDup_filter_ids (keep : Asset -> bool) (l : list Asset) :
  NoDup (List.map id l) -> NoDup (List.map id (List.filter keep l)).
Proof.
  induction l as [|a l IH]; cbn; [auto|].
  intros Hnd. apply NoDup_cons in Hnd as [Ha Hl].
  destruct (keep a); cbn; [|now apply IH].
  apply NoDup_cons. split; [|now apply IH].
  intros Hin. apply Ha. apply list_elem_of_In. apply list_elem_of_In in Hin.
  apply List.in_map_iff in Hin as (b & Hb & Hin).
  apply List.filter_In in Hin as [Hin _].
  rewrite <- Hb. now apply List.in_map.
Qed.

Lemma act_unique_ids (a : Action) (st : Client) :
  NoDup (List.map id (portfolio st)) ->
  NoDup (List.map id (portfolio (act a st))).
Proof.
  intros Hnd. destruct a as [newAsset | assetId]; cbn.
  - unfold handleAddAsset.
    destruct (List.existsb _ (portfolio st)) eqn:Hdup; [exact Hnd|].
    cbn. rewrite List.map_app. cbn.
    apply NoDup_app. split; [exact Hnd|]. split.
    + intros x Hx Hx'. apply list_elem_of_In in Hx.
      apply list_elem_of_singleton in Hx'. subst x.
      now apply existsb_id_false in Hdup.
    + apply NoDup_singleton.
  - now apply NoDup_filter_ids.
Qed.

(** X7. Ids stay unique: from a portfolio without two holdings of one id,
    no sequence of adds and removes reaches a portfolio with two. *)
Theorem X7_ids_stay_unique (actions : list Action) (st : Client) :
  NoDup (List.map id (portfolio st)) ->
  NoDup (List.map id (portfolio (perform actions st))).
Proof.
  revert st. induction actions as [|a rest IH]; intros st Hnd; [exact Hnd|].
  cbn. apply IH. now apply act_unique_ids.
Qed.

Lemma X7_witness :
  NoDup (List.map id (portfolio
    (perform [Add Ex.ethereum; Add Ex.bitcoin; Remove "ZZZZ"; Add Ex.zzzz]
       (mkClient [Ex.bitcoin] NoItem)))).
Proof.
  apply X7_ids_stay_unique. cbn. apply NoDup_singleton.
Defined.

Lemma act_in_sync (a : Action) (st : Client) : in_sync st -> in_sync (act a st).
Proof.
  intros Hsync. destruct a as [newAsset | assetId]; cbn.
  - unfold handleAddAsset. destruct (List.existsb _ (portfolio st)); [exact Hsync|].
    reflexivity.
  - reflexivity.
Qed.

Lemma perform_in_sync (actions : list Action) (st : Client) :
  in_sync st -> in_sync (perform actions st).
Proof.
  revert st. induction actions as [|a rest IH]; intros st Hsync; [exact Hsync|].
  cbn. apply IH. now apply act_in_sync.
Qed.

Lemma act_regular (a : Action) (st : Client) :
  regular_action a ->
  Forall regular (portfolio st) -> Forall regular (portfolio (act a st)).
Proof.
  intros Ha Hreg. destruct a as [newAsset | assetId]; cbn.
  - unfold handleAddAsset. destruct (List.existsb _ (portfolio st)); [exact Hreg|].
    cbn. apply Forall_app. split; [exact Hreg | now constructor].
  - apply List.Forall_forall. intros x Hx.
    apply List.filter_In in Hx as [Hx _].
    rewrite List.Forall_forall in Hreg. now apply Hreg.
Qed.

Lemma perform_regular (actions : list Action) (st : Client) :
  Forall regular_action actions ->
  Forall regular (portfolio st) ->
  Forall regular (portfolio (perform actions st)).
Proof.
  revert st. induction actions as [|a rest IH]; intros st Hacts Hreg; [exact Hreg|].
  apply Forall_cons in Hacts as [Ha Hrest].
  cbn. apply IH; [exact Hrest | now apply act_regular].
Qed.

(** X8. A reload shows the current holdings: from a state whose storage is
    in sync and whose holdings are regular, after any sequence of removes and
    of adds of regular holdings, loading what is stored gives exactly the
    portfolio in memory. *)
Theorem X8_reload_after_actions `{Platform} (actions : list Action) (st : Client) :
  in_sync st ->
  Forall regular (portfolio st) ->
  Forall regular_action actions ->
  getClientPortfolio (localStorage (perform actions st))
  = portfolio (perform actions st).
Proof.
  intros Hsync Hreg Hacts.
  rewrite (perform_in_sync actions st Hsync).
  apply regular_roundtrip. now apply perform_regular.
Qed.

Lemma X8_witness :
  getClientPortfolio
    (localStorage
       (perform [Add Ex.ethereum; Remove "bitcoin"]
          (mkClient [Ex.bitcoin] (saveClientPortfolio [plain Ex.bitcoin]))))
  = [Ex.ethereum].
Proof.
  apply (X8_reload_after_actions [Add Ex.ethereum; Remove "bitcoin"]
           (mkClient [Ex.bitcoin] (saveClientPortfolio [plain Ex.bitcoin]))).
  - reflexivity.
  - regular_holdings.
  - apply List.Forall_cons; [regular_holding|].
    apply List.Forall_cons; [exact I | apply List.Forall_nil].
Defined.

(** X9. Removal by id: afterwards no holding has that id, the holdings with
    another id are those that were there, and removing the same id again
    changes nothing. *)
Theorem X9_remove_by_id (assetId : string) (st : Client) :
  let st' := handleRemoveAsset assetId st in
  (forall a, In a (portfolio st') -> id a <> assetId)
  /\ (forall a, id a <> assetId -> (In a (portfolio st') <-> In a (portfolio st)))
  /\ handleRemoveAsset assetId st' = st'.
Proof.
  cbn zeta. unfold handleRemoveAsset. cbn [portfolio]. repeat split.
  - intros a Ha. apply List.filter_In in Ha as [_ Hne].
    apply negb_true_iff, String.eqb_neq in Hne. exact Hne.
  - intros Ha. now apply List.filter_In in Ha as [Ha _].
  - intros Ha. apply List.filter_In. split; [exact Ha|].
    now apply negb_true_iff, String.eqb_neq.
  - f_equal; [|f_equal; f_equal]; apply filter_fresh, existsb_id_false;
      intros Hin; apply List.in_map_iff in Hin as (b & Hb & Hin);
      apply List.filter_In in Hin as [_ Hne];
      apply negb_true_iff, String.eqb_neq in Hne; congruence.
Qed.

(** ** The add form *)

Lemma filled_nonempty (o : option string) (s : string) :
  filled o = Some s -> o = Some s /\ s <> "".
Proof.
  destruct o as [t|]; cbn; [|discriminate].
  destruct (String.eqb_spec t ""); [discriminate|]. now intros [= <-].
Qed.

Lemma lower_ascii_idem (c : ascii) :
  Str.lower_ascii (Str.lower_ascii c) = Str.lower_ascii c.
Proof. destruct c as [[] [] [] [] [] [] [] []]; reflexivity. Qed.

Lemma upper_ascii_idem (c : ascii) :
  GoldApi.upper_ascii (GoldApi.upper_ascii c) = GoldApi.upper_ascii c.
Proof. destruct c as [[] [] [] [] [] [] [] []]; reflexivity. Qed.

Lemma toLowerCase_idem (s : string) :
  Str.toLowerCase (Str.toLowerCase s) = Str.toLowerCase s.
Proof.
  induction s as [|c s IH]; cbn; [reflexivity|].
  now rewrite lower_ascii_idem, IH.
Qed.

Lemma toUpperCase_idem (s : string) :
  GoldApi.toUpperCase (GoldApi.toUpperCase s) = GoldApi.toUpperCase s.
Proof.
  induction s as [|c s IH]; cbn; [reflexivity|].
  now rewrite upper_ascii_idem, IH.
Qed.

Lemma generatedId_nonempty (t : AssetType) (now : N) : generatedId t now <> "".
Proof. unfold generatedId. cbn. discriminate. Qed.

(** What [buildAsset] returns, by the kind of the form. *)
Lemma buildAsset_inv `{Platform} (form : Form) (now : N) (a : Asset) :
  buildAsset form now = Some a ->
  exists t,
    f_type form = Some t /\ type a = t
    /\ filled (f_name form) = Some (name a)
    /\ filled (f_symbol form) = Some (symbol a)
    /\ Num.isNaN (quantity a) = false
    /\ currentValue a
       = match t with
         | real_estate => parseFloatString <$> filled (f_currentValue form)
         | _ => None
         end
    /\ id a <> ""
    /\ match filled (f_id form), t with
       | Some given, crypto => id a = Str.toLowerCase (Str.trim given)
       | Some given, stock => id a = GoldApi.toUpperCase (Str.trim given)
       | Some given, commodity =>
           id a = GoldApi.toUpperCase (Str.trim given)
           /\ is_XAU_or_XAG (id a) = true
       | Some given, _ =>
           id a = Str.trim given
           \/ (Str.trim given = "" /\ id a = generatedId t now)
       | None, crypto | None, stock => False
       | None, _ => id a = generatedId t now
       end.
Proof.
  unfold buildAsset.
  destruct (filled (f_name form)) as [n|]; [|discriminate].
  destruct (filled (f_symbol form)) as [s|]; [|discriminate].
  destruct (f_type form) as [t|]; [|discriminate].
  destruct (Num.isNaN _) eqn:Hnan; [discriminate|].
  destruct (filled (f_id form)) as [given|] eqn:Hid.
  - destruct t; cbn [fmap option_fmap option_map];
      try (destruct (is_XAU_or_XAG (GoldApi.toUpperCase (Str.trim given))) eqn:Hx;
           [|discriminate]);
      match goal with
      | |- context [String.eqb ?i ""] =>
          destruct (String.eqb_spec i "") as [He|He]
      end; cbn [andb]; rewrite ?Hx; try discriminate;
      intros [= <-]; eexists; cbn;
      repeat split; try reflexivity; try assumption;
      auto using generatedId_nonempty.
  - assert (Hblank : default "" (f_id form) = "").
    { destruct (f_id form) as [i|]; [|reflexivity]. cbn in Hid |- *.
      now destruct (String.eqb_spec i ""). }
    rewrite Hblank. destruct t; cbn; try discriminate;
      intros [= <-]; eexists; cbn;
      repeat split; try reflexivity; try assumption; discriminate.
Qed.

(** X10. An asset built from the form has a non-empty id, name and symbol
    and a quantity that is a number; a crypto id has no upper-case letter, a
    stock id no lower-case letter, a commodity id is XAU, XAG or the
    generated id, and only real estate carries a manual current value. *)
Theorem X10_built_asset_normal_form `{Platform}
    (form : Form) (now : N) (a : Asset) :
  buildAsset form now = Some a ->
  id a <> "" /\ name a <> "" /\ symbol a <> ""
  /\ Num.isNaN (quantity a) = false
  /\ (type a = crypto -> Str.toLowerCase (id a) = id a)
  /\ (type a = stock -> GoldApi.toUpperCase (id a) = id a)
  /\ (type a = commodity ->
      is_XAU_or_XAG (id a) = true \/ id a = generatedId commodity now)
  /\ (type a <> real_estate -> currentValue a = None).
Proof.
  intros Hbuilt.
  destruct (buildAsset_inv form now a Hbuilt)
    as (t & Ht & Hta & Hn & Hs & Hq & Hcv & Hid & Hkind).
  apply filled_nonempty in Hn as [_ Hn]. apply filled_nonempty in Hs as [_ Hs].
  repeat split; try assumption.
  - intros Hc. rewrite Hc in Hta. subst t.
    destruct (filled (f_id form)); [|contradiction].
    rewrite Hkind. apply toLowerCase_idem.
  - intros Hc. rewrite Hc in Hta. subst t.
    destruct (filled (f_id form)); [|contradiction].
    rewrite Hkind. apply toUpperCase_idem.
  - intros Hc. rewrite Hc in Hta. subst t.
    destruct (filled (f_id form)); [left; apply Hkind | now right].
  - intros Hre. rewrite Hcv. rewrite Hta in Hre. now destruct t.
Qed.

Lemma X10_witness :
  exists a,
    buildAsset Ex2.bitcoinForm Ex2.sampleTime = Some a
    /\ id a = "bitcoin" /\ Str.toLowerCase (id a) = id a
    /\ Num.isNaN (quantity a) = false.
Proof.
  exists (mkAsset "bitcoin" crypto "BTC" "Bitcoin" 2 None None).
  assert (Hbuilt : buildAsset Ex2.bitcoinForm Ex2.sampleTime
                   = Some (mkAsset "bitcoin" crypto "BTC" "Bitcoin" 2 None None))
    by (vm_compute; reflexivity).
  destruct (X10_built_asset_normal_form Ex2.bitcoinForm Ex2.sampleTime _ Hbuilt)
    as (_ & _ & _ & Hq & Hlower & _).
  split; [exact Hbuilt|]. split; [reflexivity|].
  split; [apply Hlower; reflexivity | exact Hq].
Defined.

(** X11. A crypto holding cannot be entered twice under another spelling:
    when the portfolio already has the id that the typed id trims and
    lower-cases to, submitting the form changes nothing. *)
Theorem X11_respelled_duplicate_refused `{Platform}
    (form : Form) (now : N) (st : Client) (given : string) :
  f_type form = Some crypto ->
  filled (f_id form) = Some given ->
  In (Str.toLowerCase (Str.trim given)) (List.map id (portfolio st)) ->
  submitForm form now st = st.
Proof.
  intros Htype Hgiven Hin. unfold submitForm.
  destruct (buildAsset form now) as [a|] eqn:Hbuilt; [|reflexivity].
  destruct (buildAsset_inv form now a Hbuilt)
    as (t & Ht & _ & _ & _ & _ & _ & _ & Hkind).
  rewrite Htype in Ht. injection Ht as <-. rewrite Hgiven in Hkind.
  apply add_existing.
  destruct (List.existsb _ (portfolio st)) eqn:Hdup; [reflexivity|].
  apply existsb_id_false in Hdup. rewrite Hkind in Hdup. contradiction.
Qed.

Lemma X11_witness :
  submitForm Ex2.bitcoinForm Ex2.sampleTime (mkClient [Ex.bitcoin] NoItem)
  = mkClient [Ex.bitcoin] NoItem.
Proof.
  apply (X11_respelled_duplicate_refused Ex2.bitcoinForm Ex2.sampleTime
           (mkClient [Ex.bitcoin] NoItem) "  Bitcoin ").
  - reflexivity.
  - reflexivity.
  - left. reflexivity.
Defined.

(** ** The loader's query parameters *)

Lemma split_comma_plain (x : string) :
  Str.has_comma x = false -> Str.split_comma x = [x].
Proof.
  induction x as [|c x IH]; cbn; [reflexivity|].
  destruct (Str.is_comma c); cbn; [discriminate|].
  intros Hx. now rewrite (IH Hx).
Qed.

Lemma split_comma_app (x rest : string) :
  Str.has_comma x = false ->
  Str.split_comma (x ++ String "," rest) = x :: Str.split_comma rest.
Proof.
  induction x as [|c x IH]; intros Hx; [reflexivity|].
  cbn [Str.has_comma] in Hx. apply orb_false_iff in Hx as [Hc Hx].
  change (Str.split_comma (String c x ++ String "," rest))
    with (if Str.is_comma c
          then EmptyString :: Str.split_comma (x ++ String "," rest)
          else match Str.split_comma (x ++ String "," rest) with
               | first :: others => String c first :: others
               | [] => [String c EmptyString]
               end).
  now rewrite Hc, (IH Hx).
Qed.

Lemma split_comma_join (ids : list string) :
  ids <> [] ->
  Forall (fun i => Str.has_comma i = false) ids ->
  Str.split_comma (join ids) = ids.
Proof.
  intros Hne Hplain. induction Hplain as [|i l Hi Hl IH]; [congruence|].
  destruct l as [|j l]; [now apply split_comma_plain|].
  change (join (i :: j :: l)) with (i ++ String "," (join (j :: l)))%string.
  rewrite (split_comma_app _ _ Hi). f_equal. now apply IH.
Qed.

Lemma filter_all {A} (keep : A -> bool) (l : list A) :
  Forall (fun x => keep x = true) l -> List.filter keep l = l.
Proof.
  induction 1 as [|x l Hx _ IH]; cbn; [reflexivity|]. now rewrite Hx, IH.
Qed.

Lemma parseIds_not_blank (param : option string) :
  Forall (fun i => Str.trim i <> "" /\ i <> "") (parseIds param).
Proof.
  unfold parseIds. destruct (filled param) as [p|]; [|constructor].
  apply List.Forall_forall. intros i Hi.
  apply List.filter_In in Hi as [_ Hi].
  apply negb_true_iff, String.eqb_neq in Hi.
  split; [exact Hi|]. intros ->. now apply Hi.
Qed.

(** X12. The ids parsed from a query parameter are never blank, and a
    missing or empty parameter gives no id. *)
Theorem X12_parsed_ids_not_blank (param : option string) :
  Forall (fun i => Str.trim i <> "" /\ i <> "") (parseIds param)
  /\ parseIds None = []
  /\ parseIds (Some "") = [].
Proof.
  split; [apply parseIds_not_blank | split; reflexivity].
Qed.

(** X13. Splitting undoes joining. When the value [searchParams.get] hands
    the loader is the comma-joined text of ids that hold no comma and are not
    blank, the loader parses it into the same ids in the same order. What the
    URL layer makes of the query on its way to the loader (it splits at [&],
    and decodes [%] and [+]) is not part of this property. *)
Theorem X13_join_then_parse (ids : list string) (param : option string) :
  param = Some (join ids) ->
  Forall (fun i => Str.has_comma i = false /\ Str.trim i <> "") ids ->
  parseIds param = ids.
Proof.
  intros -> Hids. destruct ids as [|i l]; [reflexivity|].
  assert (Hplain : Forall (fun i => Str.has_comma i = false) (i :: l))
    by (eapply Forall_impl; [exact Hids | now intros ? []]).
  assert (Hfilled : filled (Some (join (i :: l))) = Some (join (i :: l))).
  { cbn [filled]. destruct (String.eqb_spec (join (i :: l)) "") as [He|]; [|reflexivity].
    exfalso. apply Forall_cons in Hids as [[_ Hi] _]. apply Hi.
    destruct l; cbn in He; [now rewrite He|].
    destruct i; [|discriminate]. reflexivity. }
  unfold parseIds. rewrite Hfilled, split_comma_join by (congruence || exact Hplain).
  apply filter_all. eapply Forall_impl; [exact Hids|].
  intros x [_ Hx]. now apply negb_true_iff, String.eqb_neq.
Qed.

Lemma X13_witness :
  parseIds (Some "ethereum,bitcoin") = ["ethereum"; "bitcoin"].
Proof.
  apply (X13_join_then_parse ["ethereum"; "bitcoin"]); [reflexivity|].
  repeat (apply List.Forall_cons; [split; [reflexivity | discriminate]|]).
  apply List.Forall_nil.
Defined.

(** X14. The chart name the loader answers with is the first crypto id of
    the query, which is never empty, or ['N/A'] when the query has no crypto
    id, or ['Error'] with the error state. *)
Theorem X14_chart_name_of_answer `{Platform} `{Coercions}
    (vendors : Vendors) (w : World)
    (cryptoIdsParam stockSymbolsParam commoditySymbolsParam : option string) :
  let answer :=
    loaderFromParams vendors w cryptoIdsParam stockSymbolsParam
      commoditySymbolsParam in
  answer = errorResponse
  \/ (status answer = 200%N
      /\ match parseIds cryptoIdsParam with
         | [] => chartAssetName (body answer) = "N/A"
                 /\ chartData (body answer) = []
         | first :: _ => chartAssetName (body answer) = first /\ first <> ""
         end).
Proof.
  cbn zeta. unfold loaderFromParams.
  pose proof (parseIds_not_blank cryptoIdsParam) as Hblank.
  unfold loader. cbv zeta.
  destruct (settle (CoinGecko.fetchCryptoPrices _ _) w); [|now left].
  destruct (settle (AlphaVantage.fetchStockPrices _ _) w); [|now left].
  destruct (settle (GoldApi.fetchCommodityPrices _ _) w); [|now left].
  destruct (parseIds cryptoIdsParam) as [|first rest]; cbn [List.head].
  - right. cbn. auto.
  - apply Forall_cons in Hblank as [[_ Hfirst] _].
    destruct (String.eqb_spec first ""); [contradiction|]. cbn [negb].
    cbv iota. change (default "" (Some first)) with first.
    destruct (settle (CoinGecko.fetchCryptoHistory _ first 90) w) as [series|];
      [|now left].
    destruct (JS.truthy series); [|right; cbn; auto].
    destruct (chartOf series); [right; cbn; auto | now left].
Qed.

(** ** The adapters on empty, complete and unsupported input *)

Lemma filter_none {A} (keep : A -> bool) (l : list A) :
  Forall (fun x => keep x = false) l -> List.filter keep l = [].
Proof.
  induction 1 as [|x l Hx _ IH]; cbn; [reflexivity|]. now rewrite Hx.
Qed.

(** X15. No id, no network call: on an empty list each adapter returns an
    empty mapping and leaves the clock and the log untouched, and so does the
    commodity adapter on a list without a supported symbol. *)
Theorem X15_no_id_no_request `{Platform}
    (vendor : Vendor jsval) (w : World) (symbols : list string) :
  CoinGecko.fetchCryptoPrices vendor [] w = (Ok (VObj []), w)
  /\ AlphaVantage.fetchStockPrices vendor [] w = (Ok ∅, w)
  /\ GoldApi.fetchCommodityPrices vendor [] w = (Ok ∅, w)
  /\ (Forall (fun s => GoldApi.supported (GoldApi.toUpperCase s) = false) symbols ->
      GoldApi.fetchCommodityPrices vendor symbols w = (Ok ∅, w)).
Proof.
  repeat split. intros Hnone. unfold GoldApi.fetchCommodityPrices.
  now rewrite (filter_none _ _ Hnone).
Qed.

Lemma X15_witness :
  GoldApi.fetchCommodityPrices (Ex.always (Ex.json200 Ex.goldSpot))
    ["XPT"; "XPD"] Ex.start = (Ok ∅, Ex.start).
Proof.
  apply X15_no_id_no_request.
  repeat (apply List.Forall_cons; [reflexivity|]). apply List.Forall_nil.
Defined.

(** X16. The crypto adapter sends exactly one request for a batch of any
    size, whether it then returns or throws. *)
Theorem X16_crypto_one_request
    (vendor : Vendor jsval) (ids : list string) (w : World) :
  ids <> [] ->
  let w' := snd (CoinGecko.fetchCryptoPrices vendor ids w) in
  log w' = log w ++ [Requested (CoinGecko.price_url ids)]
  /\ clock w' = (clock w + latency (vendor w (CoinGecko.price_url ids)))%N.
Proof.
  intros Hids. cbn zeta. rewrite (fetchCryptoPrices_spec vendor ids w Hids).
  split; reflexivity.
Qed.

Lemma X16_witness :
  log (snd (CoinGecko.fetchCryptoPrices (Ex.always Ex.http500)
              ["bitcoin"; "ethereum"; "dogecoin"] Ex.start))
  = [Requested (CoinGecko.price_url ["bitcoin"; "ethereum"; "dogecoin"])].
Proof.
  apply (X16_crypto_one_request (Ex.always Ex.http500)
           ["bitcoin"; "ethereum"; "dogecoin"] Ex.start).
  discriminate.
Defined.





(** X18. A supported metal the vendor always prices is in the commodity
    adapter's result under its upper-case symbol, in whatever letter case it
    was asked for. *)
Theorem X18_priced_metal_present
    (vendor : Vendor jsval) (w : World) (symbols : list string)
    (symbol : string) (p : float) :
  In symbol symbols ->
  GoldApi.supported (GoldApi.toUpperCase symbol) = true ->
  (forall w1,
      GoldApi.priced (vendor w1 (GoldApi.spot_url (GoldApi.toUpperCase symbol))) p) ->
  exists results w',
    GoldApi.fetchCommodityPrices vendor symbols w = (Ok results, w')
    /\ results !! GoldApi.toUpperCase symbol = Some (mkPrice p).
Proof.
  intros Hin Hsup Hpriced. unfold GoldApi.fetchCommodityPrices.
  assert (Hfetch : In symbol
            (List.filter (fun s => GoldApi.supported (GoldApi.toUpperCase s)) symbols))
    by (apply List.filter_In; auto).
  destruct (List.filter _ symbols) as [|s l] eqn:Hfilter; [destruct Hfetch|].
  cbn [List.length Nat.eqb].
  change (String.eqb GoldApi.GOLDAPI_API_KEY ""
          || negb (String.prefix "goldapi-" GoldApi.GOLDAPI_API_KEY)) with false.
  cbv iota. apply gold_fetchEach_complete; [exact Hpriced|].
  right. now apply List.in_map.
Qed.

Lemma X18_witness :
  exists results w',
    GoldApi.fetchCommodityPrices (Ex.always (Ex.json200 Ex.goldSpot))
      ["XPT"; "xau"] Ex.start = (Ok results, w')
    /\ results !! "XAU" = Some (mkPrice 2000).
Proof.
  apply (X18_priced_metal_present (Ex.always (Ex.json200 Ex.goldSpot))
           Ex.start ["XPT"; "xau"] "xau" 2000%float).
  - right. left. reflexivity.
  - reflexivity.
  - intros w1. exists (Ex.json200 Ex.goldSpot), Ex.goldSpot.
    repeat split; reflexivity.
Defined.

Lemma requests_gold_events (symbols : list string) :
  requests (GoldApi.events symbols)
  = List.map (fun s => GoldApi.spot_url (GoldApi.toUpperCase s)) symbols.
Proof. induction symbols as [|s l IH]; cbn; [reflexivity|]. now f_equal. Qed.

(** X19. The commodity adapter is confined to the two metals: every key of
    its result is XAU or XAG, every request it sends goes to the spot URL of
    one of them, and it sends no more requests than it was given symbols. *)
Theorem X19_commodity_confined
    (vendor : Vendor jsval) (w : World) (symbols : list string) :
  exists results w' urls,
    GoldApi.fetchCommodityPrices vendor symbols w = (Ok results, w')
    /\ (forall k, is_Some (results !! k) -> k = "XAU" \/ k = "XAG")
    /\ requests (log w') = requests (log w) ++ urls
    /\ Forall (fun url => url = GoldApi.spot_url "XAU" \/ url = GoldApi.spot_url "XAG") urls
    /\ (List.length urls <= List.length symbols)%nat.
Proof.
  destruct (fetchCommodityPrices_spec vendor symbols w)
    as (results & w' & Hrun & Hlog & Hprov & _).
  exists results, w',
    (List.map (fun s => GoldApi.spot_url (GoldApi.toUpperCase s))
       (List.filter (fun s => GoldApi.supported (GoldApi.toUpperCase s)) symbols)).
  split; [exact Hrun|]. split.
  { intros k [d Hk]. now destruct (Hprov k d Hk). }
  split.
  { now rewrite Hlog, requests_app, requests_gold_events. }
  split.
  - apply List.Forall_forall. intros url Hurl.
    apply List.in_map_iff in Hurl as (s & <- & Hs).
    apply List.filter_In in Hs as [_ Hs].
    apply supported_spec in Hs as [-> | ->]; auto.
  - rewrite List.length_map. apply List.filter_length_le.
Qed.

(** ** Historical commodity price *)

(** X20. The dated commodity lookup never throws and sends at most one
    request; for a symbol other than XAU and XAG, or a date that is not
    eight digits, it answers [null] without any request; and a price it
    returns is the numeric [price] of a 2xx reply that is not an error
    payload. *)
Theorem X20_price_on_date
    (vendor : Vendor jsval) (symbol date : string) (w : World) :
  let upperSymbol := GoldApi.toUpperCase symbol in
  let url := dated_url upperSymbol date in
  exists found w',
    fetchCommodityPriceOnDate vendor symbol date w = (Ok found, w')
    /\ (w' = w \/ w' = answered vendor w url)
    /\ (GoldApi.supported upperSymbol = false \/ Str.eight_digits date = false ->
        found = None /\ w' = w)
    /\ (forall d, found = Some d ->
          GoldApi.supported upperSymbol = true
          /\ Str.eight_digits date = true
          /\ GoldApi.priced (vendor w url) (usd d)).
Proof.
  cbn zeta. unfold fetchCommodityPriceOnDate.
  destruct (GoldApi.supported (GoldApi.toUpperCase symbol)) eqn:Hsup; cbn [negb].
  2:{ exists None, w. split; [reflexivity|]. split; [now left|].
      split; [auto | intros d Hd; discriminate Hd]. }
  destruct (Str.eight_digits date) eqn:Hdate; cbn [negb].
  2:{ exists None, w. split; [reflexivity|]. split; [now left|].
      split; [auto | intros d Hd; discriminate Hd]. }
  change (String.eqb GoldApi.GOLDAPI_API_KEY ""
          || negb (String.prefix "goldapi-" GoldApi.GOLDAPI_API_KEY)) with false.
  cbv iota. unfold catch, mbind, M_bind, fetch.
  fold (answered vendor w (dated_url (GoldApi.toUpperCase symbol) date)).
  unfold GoldApi.priced.
  destruct (response (vendor w _)) as [r|] eqn:Hr.
  2:{ eexists None, _. split; [reflexivity|]. split; [now right|].
      split; [intros [Hx|Hx]; discriminate Hx | intros d Hd; discriminate Hd]. }
  destruct (ok r) eqn:Hok; cbn [negb].
  2:{ eexists None, _. split; [reflexivity|]. split; [now right|].
      split; [intros [Hx|Hx]; discriminate Hx | intros d Hd; discriminate Hd]. }
  unfold json_of. destruct (json r) as [data|] eqn:Hjson.
  2:{ eexists None, _. split; [reflexivity|]. split; [now right|].
      split; [intros [Hx|Hx]; discriminate Hx | intros d Hd; discriminate Hd]. }
  cbn. destruct (GoldApi.isGoldApiError data) eqn:Herr.
  { eexists None, _. split; [reflexivity|]. split; [now right|].
    split; [intros [Hx|Hx]; discriminate Hx | intros d Hd; discriminate Hd]. }
  eexists (mkPrice <$> GoldApi.spot_price data), _.
  split; [reflexivity|]. split; [now right|].
  split; [intros [Hx|Hx]; discriminate Hx|].
  intros d Hd. split; [reflexivity|]. split; [reflexivity|]. exists r, data.
  destruct (GoldApi.spot_price data) as [p|] eqn:Hp; [|discriminate].
  injection Hd as <-. cbn. auto 10 using spot_price_some.
Qed.

(** ** Price history *)

Lemma assoc_update (k k' : string) (x : jsval) (props : list (string * jsval)) :
  JS.assoc k'
    (List.map (fun kv => if String.eqb (fst kv) k then (fst kv, x) else kv) props)
  = if String.eqb k' k then (fun _ => x) <$> JS.assoc k props else JS.assoc k' props.
Proof.
  induction props as [|[k0 v] rest IH]; cbn [List.map JS.assoc fst].
  - now destruct (String.eqb k' k).
  - destruct (String.eqb_spec k0 k) as [->|Hk0]; cbn [JS.assoc]; rewrite IH;
      destruct (String.eqb_spec k' k) as [->|Hk'].
    + rewrite String.eqb_refl. now destruct (JS.assoc k rest).
    + destruct (JS.assoc k' rest); [reflexivity|].
      destruct (String.eqb_spec k k'); [congruence | reflexivity].
    + destruct (JS.assoc k rest); [reflexivity|].
      destruct (String.eqb_spec k0 k); [congruence | reflexivity].
    + reflexivity.
Qed.

(** Reading an object after one of its properties has been given a value. *)
Lemma get_update (k k' : string) (x : jsval) (props : list (string * jsval)) :
  JS.get k' (JS.update k x (VObj props))
  = Some (if String.eqb k' k
          then match JS.assoc k props with Some _ => x | None => VUndefined end
          else default VUndefined (JS.assoc k' props)).
Proof.
  cbn [JS.update JS.get]. rewrite assoc_update.
  destruct (String.eqb k' k); [|reflexivity].
  now destruct (JS.assoc k props).
Qed.

Lemma last_snoc {A} (l : list A) (x : A) :
  List.last (List.map Some (l ++ [x])) None = Some x.
Proof. rewrite List.map_app. cbn [List.map]. apply List.last_last. Qed.

(** X21. The history fetch drops nothing but a recent last point, and
    throws on a body it cannot read. It throws when the request fails, the
    status is not 2xx or the body is not JSON, and with a TypeError when the
    body is [null] or the last entry of [prices] is [null]. A body without
    [prices], or with an empty [prices], is returned as received. When the
    last entry of the array [prices] starts with a timestamp less than 23
    hours (82 800 000 ms) before the clock at the response, the body is
    returned with [prices], [market_caps] and [total_volumes] each short of
    its last entry and every other property untouched, or a TypeError is
    thrown when [market_caps] or [total_volumes] is there and is not an
    array; with an older timestamp the body is returned as received. *)
Theorem X21_history_drops_only_recent_last `{Coercions}
    (vendor : Vendor jsval) (id : string) (days : N) (w : World) :
  let url := CoinGecko.history_url id days in
  let now :=
    PrimFloat.of_uint63 (Uint63.of_Z (Z.of_N (clock (answered vendor w url)))) in
  let result := settle (CoinGecko.fetchCryptoHistory vendor id days) w in
  (response (vendor w url) = None -> result = Thrown FetchFailed)
  /\ (forall r, response (vendor w url) = Some r -> ok r = false ->
        result = Thrown HttpError)
  /\ (forall r, response (vendor w url) = Some r -> ok r = true -> json r = None ->
        result = Thrown SyntaxError)
  /\ (forall r data,
        response (vendor w url) = Some r -> ok r = true -> json r = Some data ->
        (data = VNull -> result = Thrown TypeError)
        /\ (JS.get "prices" data = Some VUndefined
            \/ JS.get "prices" data = Some (VArr []) ->
            result = Ok data)
        /\ (forall points,
              JS.get "prices" data = Some (VArr (points ++ [VNull])) ->
              result = Thrown TypeError)
        /\ (forall points t rest,
              JS.get "prices" data = Some (VArr (points ++ [VArr (VNum t :: rest)])) ->
              if PrimFloat.ltb (Num.sub now t) 82800000%float then
                match JS.get "market_caps" data ≫= JS.pop_optional,
                      JS.get "total_volumes" data ≫= JS.pop_optional with
                | Some caps, Some volumes =>
                    exists h,
                      result = Ok h
                      /\ JS.get "prices" h = Some (VArr points)
                      /\ JS.get "market_caps" h = Some caps
                      /\ JS.get "total_volumes" h = Some volumes
                      /\ forall k, k <> "prices" -> k <> "market_caps" ->
                                   k <> "total_volumes" ->
                                   JS.get k h = JS.get k data
                | _, _ => result = Thrown TypeError
                end
              else result = Ok data)).
Proof.
  cbn zeta. unfold settle, CoinGecko.fetchCryptoHistory, catch, mbind, M_bind, fetch.
  fold (answered vendor w (CoinGecko.history_url id days)).
  split; [intros ->; reflexivity|].
  split; [intros r -> ->; reflexivity|].
  split; [intros r -> -> Hjson; unfold json_of; rewrite Hjson; reflexivity|].
  intros r data -> -> Hjson. cbn [negb]. unfold json_of. rewrite Hjson.
  cbn [mret M_ret]. split; [intros ->; reflexivity|].
  split; [|split].
  - intros [Hprices | Hprices]; rewrite Hprices; reflexivity.
  - intros points Hprices. rewrite Hprices. cbn [orThrow mret M_ret].
    unfold CoinGecko.lastEntry. cbn [JS.truthy negb]. rewrite last_snoc.
    reflexivity.
  - intros points t rest Hprices.
    destruct data as [| | | | | |props]; try discriminate Hprices.
    rewrite Hprices. cbn [orThrow mret M_ret].
    unfold CoinGecko.lastEntry. cbn [JS.truthy negb]. rewrite last_snoc.
    cbn [orThrow mret M_ret JS.item List.nth]. unfold Date_now.
    cbn [JS.toNumber JS.printable orThrow mret M_ret fst snd].
    destruct (PrimFloat.ltb _ 82800000%float); [|reflexivity].
    unfold CoinGecko.dropLast. rewrite Hprices.
    cbn [JS.get] in Hprices.
    destruct (JS.assoc "prices" props) as [found|] eqn:Hfound; [|discriminate].
    cbn in Hprices. injection Hprices as ->.
    cbn [mbind option_bind JS.pop JS.update JS.get]. rewrite List.removelast_last.
    rewrite !assoc_update.
    cbn [String.eqb Ascii.eqb Bool.eqb].
    destruct (JS.pop_optional (default VUndefined (JS.assoc "market_caps" props)))
      as [caps|] eqn:Hcaps; cbn [mbind option_bind]; [|reflexivity].
    rewrite !assoc_update. cbn [String.eqb Ascii.eqb Bool.eqb].
    destruct (JS.pop_optional (default VUndefined (JS.assoc "total_volumes" props)))
      as [volumes|] eqn:Hvolumes; cbn [mbind option_bind orThrow mret M_ret fst];
      [|reflexivity].
    eexists. split; [reflexivity|].
    cbn [JS.get]. rewrite !assoc_update. cbn [String.eqb Ascii.eqb Bool.eqb].
    rewrite Hfound.
    split; [reflexivity|]. split; [|split].
    + destruct (JS.assoc "market_caps" props); [reflexivity|].
      cbn in Hcaps |- *. congruence.
    + destruct (JS.assoc "total_volumes" props); [reflexivity|].
      cbn in Hvolumes |- *. congruence.
    + intros k Hk1 Hk2 Hk3. rewrite !assoc_update.
      apply String.eqb_neq in Hk1, Hk2, Hk3. now rewrite Hk1, Hk2, Hk3.
Qed.

Lemma X21_witness :
  exists h,
    settle (CoinGecko.fetchCryptoHistory (Ex.always (Ex.json200 Ex2.twoHourOld))
              "bitcoin" 90) Ex.start = Ok h
    /\ JS.get "prices" h = Some (VArr [VArr [VNum 1735516800000; VNum 40000]])
    /\ JS.get "market_caps" h = Some (VArr [VArr [VNum 1735516800000; VNum 1]])
    /\ JS.get "total_volumes" h = Some VUndefined.
Proof.
  destruct (X21_history_drops_only_recent_last
              (Ex.always (Ex.json200 Ex2.twoHourOld)) "bitcoin" 90 Ex.start)
    as (_ & _ & _ & Hbody).
  destruct (Hbody (Ex.json200 Ex2.twoHourOld) Ex2.twoHourOld eq_refl eq_refl eq_refl)
    as (_ & _ & _ & Hrecent).
  specialize (Hrecent [VArr [VNum 1735516800000; VNum 40000]]
                1735682400000%float [VNum 41000] eq_refl).
  destruct Hrecent as (h & Hrun & Hprices & Hcaps & Hvolumes & _).
  exists h. auto.
Defined.


(** ** Merging the prices *)

(** X22. The merged price map is the union of the three results, a later
    adapter winning a shared key: an id is looked up in the commodity result,
    then in the equity result, then among the properties of the crypto
    response, whose last occurrence of a repeated key counts. *)
Theorem X22_merge_lookup
    (cryptoPricesResult : jsval) (stockPricesResult commodityPricesResult : AllPrices)
    (k : string) :
  mergePrices cryptoPricesResult stockPricesResult commodityPricesResult !! k
  = match commodityPricesResult !! k, stockPricesResult !! k with
    | Some d, _ => Some (untyped d)
    | None, Some d => Some (untyped d)
    | None, None => spread (JS.or cryptoPricesResult (VObj [])) !! k
    end
  /\ (forall props,
        cryptoPricesResult = VObj props ->
        commodityPricesResult !! k = None ->
        stockPricesResult !! k = None ->
        mergePrices cryptoPricesResult stockPricesResult commodityPricesResult !! k
        = JS.assoc k props).
Proof.
  assert (Hlookup :
    mergePrices cryptoPricesResult stockPricesResult commodityPricesResult !! k
    = match commodityPricesResult !! k, stockPricesResult !! k with
      | Some d, _ => Some (untyped d)
      | None, Some d => Some (untyped d)
      | None, None => spread (JS.or cryptoPricesResult (VObj [])) !! k
      end).
  { unfold mergePrices. rewrite !lookup_union, !lookup_fmap.
    destruct (commodityPricesResult !! k), (stockPricesResult !! k); cbn;
      try reflexivity;
      now destruct (spread (JS.or cryptoPricesResult (VObj [])) !! k). }
  split; [exact Hlookup|].
  intros props -> Hc Hs. rewrite Hlookup, Hc, Hs.
  change (JS.or (VObj props) (VObj [])) with (VObj props).
  apply lookup_spread_object.
Qed.

(** ** The refresh controller *)

Lemma keys_empty_iff {P} (prices : gmap string P) : keys prices = [] <-> prices = ∅.
Proof.
  unfold keys. rewrite <- map_to_list_empty_iff.
  destruct (map_to_list prices); cbn; split; congruence.
Qed.

(** X23. Clearing settles. With an empty portfolio and an idle fetcher,
    Effect 2 reloads with no ids exactly when the last run left a non-empty
    price map; the loader answers a query without ids with an empty map, no
    chart and ['N/A'], whatever the vendors do; and after that answer Effect 2
    issues nothing more. *)
Theorem X23_clearing_settles `{Platform} `{Coercions}
    (vendors : Vendors) (w : World) (last initial : LoaderData jsval) :
  effect2 [] (mkFetcher idle (Some last)) initial
  = (if decide (currentPrices last = ∅) then None else Some "?index")
  /\ loader vendors w [] [] [] = mkLoaderResponse 200 (mkLoaderData ∅ [] "N/A")
  /\ effect2 [] (mkFetcher idle (Some (body (loader vendors w [] [] [])))) initial
     = None
  /\ effect2 [] (mkFetcher idle None) initial = None.
Proof.
  split; [|repeat split].
  unfold effect2. cbn.
  destruct (keys (currentPrices last)) as [|k l] eqn:Hkeys.
  - apply keys_empty_iff in Hkeys. now rewrite decide_True.
  - rewrite decide_False; [reflexivity|].
    intros Hempty. apply keys_empty_iff in Hempty. congruence.
Qed.

Lemma leb_trans (a b c : string) :
  String.leb a b = true -> String.leb b c = true -> String.leb a c = true.
Proof.
  unfold String.leb. revert b c.
  induction a as [|x a IH]; intros [|y b] [|z c]; cbn; try congruence.
  unfold Ascii.compare.
  destruct (N.compare_spec (N_of_ascii x) (N_of_ascii y)),
    (N.compare_spec (N_of_ascii y) (N_of_ascii z)),
    (N.compare_spec (N_of_ascii x) (N_of_ascii z));
    try congruence; try lia; auto.
  apply IH.
Qed.

Lemma sort_of_permutation (l1 l2 : list string) :
  Permutation l1 l2 -> sort l1 = sort l2.
Proof.
  intros Hperm.
  assert (Transitive (fun a b => String.leb a b = true))
    by (intros a b c; apply leb_trans).
  assert (AntiSymm eq (fun a b => String.leb a b = true))
    by (intros a b; apply String.leb_antisym).
  apply (Sorted_unique (fun a b => String.leb a b = true));
    [apply sort_sorted | apply sort_sorted |].
  now rewrite <- !sort_perm.
Qed.

(** X24. No run for data that is up to date: with an idle fetcher whose last
    run returned prices under exactly the needed ids, in any order, and
    charted the needed chart name, Effect 2 issues nothing. *)
Theorem X24_up_to_date_no_run {P}
    (portfolio : list Asset) (last initial : LoaderData P) :
  portfolio <> [] ->
  Permutation (keys (currentPrices last)) (neededIdsOf portfolio) ->
  chartAssetName last = neededChartNameOf portfolio ->
  effect2 portfolio (mkFetcher idle (Some last)) initial = None.
Proof.
  intros Hne Hkeys Hchart. unfold effect2.
  destruct portfolio as [|a l]; [congruence|].
  cbn [List.length Nat.ltb Nat.leb andb state data is_idle from_option].
  fold (cryptoIdsOf (a :: l)) (stockSymbolsOf (a :: l)) (commoditySymbolsOf (a :: l)).
  cbv zeta.
  assert (Hids :
    sort (sort (cryptoIdsOf (a :: l)) ++ sort (stockSymbolsOf (a :: l))
          ++ sort (commoditySymbolsOf (a :: l)))
    = sort (keys (currentPrices last))).
  { apply sort_of_permutation. rewrite Hkeys. unfold neededIdsOf.
    now rewrite <- !sort_perm. }
  rewrite Hids, String.eqb_refl.
  fold (neededChartNameOf (a :: l)). rewrite Hchart, String.eqb_refl.
  reflexivity.
Qed.

Lemma X24_witness :
  effect2 [Ex.bitcoin]
    (mkFetcher idle (Some (mkLoaderData Ex.prices [] "bitcoin")))
    (mkLoaderData ∅ [] "N/A") = None.
Proof.
  apply X24_up_to_date_no_run.
  - discriminate.
  - vm_compute. apply Permutation_refl.
  - reflexivity.
Defined.

(** X25. At most one refresh in flight: while the fetcher is loading or
    submitting, Effect 2 issues no run, whatever the portfolio and the data. *)
Theorem X25_no_run_while_busy {P}
    (portfolio : list Asset) (priceFetcher : Fetcher P)
    (initialLoaderData : LoaderData P) :
  state priceFetcher = loading \/ state priceFetcher = submitting ->
  effect2 portfolio priceFetcher initialLoaderData = None.
Proof.
  intros Hbusy. apply effect2_busy. destruct Hbusy as [-> | ->]; discriminate.
Qed.

Lemma X25_witness :
  effect2 [Ex.ethereum; Ex.bitcoin] (mkFetcher (P := PriceData) loading None)
    (mkLoaderData ∅ [] "N/A") = None.
Proof. apply X25_no_run_while_busy. left. reflexivity. Defined.

(** ** The table cells *)

Lemma calculate_price_value (prices : AllPrices) (a : Asset) :
  is_Some (price (calculate prices a)) ->
  is_Some (calculatedValue (calculate prices a)).
Proof.
  unfold calculate, read.
  destruct (prices !! id a), (inherited (id a)), (type a), (currentValue a);
    cbn; intros Hp; try (eexists; reflexivity); destruct Hp; discriminate.
Qed.

Lemma isLoadingPrice_true (s : FetcherState) (row : CalculatedAsset) :
  isLoadingPrice s row = true ->
  s = loading /\ fetchable (type (asset_of row)) = true.
Proof.
  unfold isLoadingPrice. destruct s; try discriminate.
  destruct (type (asset_of row)); try discriminate; auto.
Qed.

(** X26. ['Loading...'] and ['N/A'] are kept apart. A row shows the waiting
    text, for its price or its value, only while the fetcher is loading and
    only for a crypto, stock or commodity holding; the price cell shows ['N/A']
    exactly when the price is unavailable; a row that shows a price shows a
    value; a crypto, stock or commodity holding with a price entry shows that
    price and its quantity times it, whatever the fetcher does; and one whose
    id has no entry and names an inherited member shows the value [NaN] next
    to a waiting or unavailable price. *)
Theorem X26_waiting_and_unavailable
    (s : FetcherState) (currentPrices : AllPrices) (asset : Asset) :
  let row := calculate currentPrices asset in
  (priceCell s row = Waiting \/ valueCell s row = Waiting ->
   s = loading /\ fetchable (type asset) = true)
  /\ (priceCell s row = NotAvailable <-> isPriceUnavailable s row = true)
  /\ (forall p digits, priceCell s row = Amount p digits ->
        exists v, valueCell s row = Amount v 2)
  /\ (forall d, fetchable (type asset) = true ->
        currentPrices !! id asset = Some d ->
        (exists digits, priceCell s row = Amount (usd d) digits)
        /\ valueCell s row = Amount (Num.mul (quantity asset) (usd d)) 2)
  /\ (fetchable (type asset) = true -> currentPrices !! id asset = None ->
      inherited (id asset) = true ->
      valueCell s row = Amount (Num.mul (quantity asset) PrimFloat.nan) 2
      /\ priceCell s row = (if isLoadingPrice s row then Waiting else NotAvailable)).
Proof.
  cbn zeta. set (row := calculate currentPrices asset).
  pose proof (calculate_price_value currentPrices asset) as Hpv.
  pose proof (isLoadingPrice_true s row) as Hload.
  unfold row in Hload at 2. rewrite calculate_asset_of in Hload.
  fold row in Hpv.
  split; [|split; [|split; [|split]]].
  - unfold priceCell, valueCell.
    destruct (price row), (calculatedValue row), (isLoadingPrice s row);
      intros [Hx|Hx]; try discriminate Hx; now apply Hload.
  - unfold priceCell, isPriceUnavailable.
    destruct (price row), (isLoadingPrice s row); cbn;
      split; intros Hx; first [discriminate Hx | reflexivity].
  - unfold priceCell, valueCell. intros p digits Hp.
    destruct (price row) as [p'|] eqn:Hprice.
    + destruct Hpv as [v ->]; [now eexists|]. now eexists.
    + destruct (isLoadingPrice s row); discriminate Hp.
  - intros d Hkind Hd. unfold priceCell, valueCell, row, calculate, read.
    rewrite Hd, Hkind. cbn [price calculatedValue asset_of].
    split; [eexists|]; reflexivity.
  - intros Hkind Hnone Hmember.
    unfold priceCell, valueCell, isLoadingPrice, row, calculate, read.
    rewrite Hnone, Hmember, Hkind. cbn [price calculatedValue asset_of].
    split; reflexivity.
Qed.

(** ** The chart series of an answer *)

Section ChartSeries.
Context `{Platform} `{Coercions}.

Lemma chartOf_points (series : jsval) (points : list (float * float)) :
  JS.get "prices" series
  = Some (VArr (List.map (fun point => VArr [VNum (fst point); VNum (snd point)])
                  points)) ->
  chartOf series
  = Some (List.map (fun point =>
                      VObj [("date", VStr (toLocaleDateString (fst point)));
                            ("value", VNum (snd point))]) points).
Proof.
  intros Hprices. unfold chartOf. rewrite Hprices. cbn [mbind option_bind].
  clear Hprices. induction points as [|[t p] rest IH]; [reflexivity|].
  cbn [List.map mapM fst snd]. rewrite IH. reflexivity.
Qed.

Lemma sent_point (label : string) (p : float) :
  JSON.element (JSON.value (VObj [("date", VStr label); ("value", VNum p)]))
  = VObj [("date", VStr label); ("value", stringify_number p)].
Proof.
  unfold stringify_number. cbn. destruct (Num.isFinite p); reflexivity.
Qed.

End ChartSeries.

(** X27. The chart the loader sends for a history of the declared shape.
    When the crypto batch succeeds and the history request succeeds with a
    body whose [prices] is an array of [[timestamp, price]] pairs of numbers,
    the loader answers 200 with the first crypto id as chart name and one
    chart point per pair, in order: its date is the locale date of the
    timestamp and its value is the price as JSON carries it, [null] when the
    price is not finite. *)
Theorem X27_chart_of_declared_history `{Platform} `{Coercions}
    (vendors : Vendors) (w : World)
    (cryptoIds stockSymbols commoditySymbols : list string)
    (first : string) (cryptoPrices series : jsval) (points : list (float * float)) :
  List.head cryptoIds = Some first ->
  first <> "" ->
  settle (CoinGecko.fetchCryptoPrices (coinGeckoPrices vendors) cryptoIds) w
  = Ok cryptoPrices ->
  settle (CoinGecko.fetchCryptoHistory (coinGeckoHistory vendors) first 90) w
  = Ok series ->
  JS.get "prices" series
  = Some (VArr (List.map (fun point => VArr [VNum (fst point); VNum (snd point)])
                  points)) ->
  let answer := loader vendors w cryptoIds stockSymbols commoditySymbols in
  status answer = 200%N
  /\ chartAssetName (body answer) = first
  /\ chartData (body answer)
     = List.map (fun point =>
                   VObj [("date", VStr (toLocaleDateString (fst point)));
                         ("value", stringify_number (snd point))]) points.
Proof.
  intros Hhead Hfirst Hcrypto Hhistory Hprices. cbn zeta.
  destruct (fetchStockPrices_spec (alphaVantage vendors) stockSymbols w)
    as (stockPrices & ws & Hstock & _).
  destruct (fetchCommodityPrices_spec (goldApi vendors) commoditySymbols w)
    as (commodityPrices & wc & Hcommodity & _).
  assert (Hs : settle (AlphaVantage.fetchStockPrices (alphaVantage vendors) stockSymbols) w
               = Ok stockPrices) by (unfold settle; now rewrite Hstock).
  assert (Hc : settle (GoldApi.fetchCommodityPrices (goldApi vendors) commoditySymbols) w
               = Ok commodityPrices) by (unfold settle; now rewrite Hcommodity).
  assert (Htruthy : JS.truthy series = true)
    by (destruct series; try discriminate Hprices; reflexivity).
  unfold loader. cbv zeta. rewrite Hs, Hc, Hcrypto, Hhead.
  destruct (String.eqb_spec first "") as [->|_]; [congruence|]. cbn [negb].
  cbv iota. change (default "" (Some first)) with first.
  rewrite Hhistory, Htruthy, (chartOf_points series points Hprices).
  cbn [status body sent chartAssetName chartData].
  split; [reflexivity|]. split; [reflexivity|].
  rewrite List.map_map. apply List.map_ext. intros [t p]. apply sent_point.
Qed.

Lemma X27_witness :
  let answer := loader Ex.market Ex.start ["bitcoin"] [] [] in
  status answer = 200%N
  /\ chartAssetName (body answer) = "bitcoin"
  /\ chartData (body answer)
     = [VObj [("date", VStr "1/1/2025"); ("value", VNum 40000)]].
Proof.
  cbv zeta.
  destruct (X27_chart_of_declared_history Ex.market Ex.start ["bitcoin"] [] []
              "bitcoin" Ex.coins Ex.history [(1735516800000%float, 40000%float)])
    as (Hstatus & Hname & Hchart); try reflexivity; try discriminate.
  split; [exact Hstatus|]. split; [exact Hname|].
  rewrite Hchart. vm_compute. reflexivity.
Defined.
